(** * ocrworker: the storage mirror (s3.py) and the OCR task graph (tasks.py)

    A shallow embedding of [ocrworker/s3.py] and [ocrworker/tasks.py].
    Python code that touches the file system, the object store, the
    metadata store, the identifier generator or the Celery broker is
    written in a state-and-exception monad over an explicit [World];
    a raised exception keeps the effects performed before it. *)

From Stdlib Require Import ZArith Ascii String.
From stdpp Require Import gmap strings pretty list fin_maps.


(** ** Data *)

(** [uuid.UUID], in its canonical text form. *)
Definition UUID := string.

(** [pathlib.Path], as its sequence of parts. *)
Abbreviation Path := (list string).

(** [bytes]. *)
Abbreviation Bytes := (list Byte.byte).

(** [str(path)]. *)
Definition path_str (p : Path) : string := String.concat "/" p.

(** [Path(s)] for a one-part string; [Path("")] has no part. *)
Definition Path_of (s : string) : Path :=
  if decide (s = "") then [] else [s].

(** [path.parent]. *)
Definition parent (p : Path) : Path := removelast p.

(** The exceptions the two modules raise or let through. *)
Inductive exn :=
| S3DocumentNotFound (msg : string)   (* ocrworker.exceptions *)
| ValueError (msg : string)
| ClientError (code : Z)              (* botocore: an error response of the service *)
| EndpointConnectionError             (* botocore: no response; not a ClientError *)
| ConnectError                        (* httpx: transport failure *)
| OSError (what : string)             (* FileExistsError, IsADirectoryError, ... *)
| NoResultFound                       (* metadata store: no such row *)
| PdfError (src : string).            (* the PDF merge routine could not read a source *)

Inductive result (A : Type) :=
| Ok (a : A)
| Raise (e : exn).
Arguments Ok {A} a.
Arguments Raise {A} e.

(** *** Local file system *)

Inductive node :=
| File (content : Bytes)
| Dir.

(** *** Object store, seen through boto3 and through signed URLs *)

Inductive s3_reply (A : Type) :=
| S3Ok (a : A)
| S3ClientError (code : Z)   (* 404, 403, ...: raised by boto3 as ClientError *)
| S3NoConnection.            (* raised by boto3 as EndpointConnectionError *)
Arguments S3Ok {A} a.
Arguments S3ClientError {A} code.
Arguments S3NoConnection {A}.

(** What [generate_presigned_url("get_object", {Bucket, Key}, ExpiresIn)]
    is computed from; no request is sent to build it. *)
Record presigned_url := {
  url_bucket : option string;
  url_key : string;
  url_expires_in : Z
}.

Record http_response := {
  status_code : Z;
  body : Bytes
}.

Inductive http_reply :=
| HttpResponse (resp : http_response)
| HttpNoConnection.

(** Every request that leaves the process, in the order it was sent. *)
Inductive remote_call :=
| HeadObject (bucket : option string) (key : string)
| DownloadFile (bucket : option string) (key : string)
| UploadFile (bucket : option string) (key : string)
| HttpGet (url : presigned_url).

(** A request can be refused (an error response with status 403) or get
    no response at all. *)
Inductive s3_fault :=
| AccessDenied
| Unreachable.

Record Remote := {
  objects : gmap (option string * string) Bytes;   (* (bucket, key) ↦ content *)
  fault : remote_call → option s3_fault;
  error_document : Z → Bytes                       (* the body of an error response *)
}.

Definition s3_head (r : Remote) (bucket : option string) (key : string) : s3_reply unit :=
  match fault r (HeadObject bucket key) with
  | Some AccessDenied => S3ClientError 403
  | Some Unreachable => S3NoConnection
  | None =>
      match objects r !! (bucket, key) with
      | Some _ => S3Ok tt
      | None => S3ClientError 404
      end
  end.

Definition s3_get (r : Remote) (bucket : option string) (key : string) : s3_reply Bytes :=
  match fault r (DownloadFile bucket key) with
  | Some AccessDenied => S3ClientError 403
  | Some Unreachable => S3NoConnection
  | None =>
      match objects r !! (bucket, key) with
      | Some b => S3Ok b
      | None => S3ClientError 404
      end
  end.

Definition s3_put (r : Remote) (bucket : option string) (key : string) (b : Bytes)
  : s3_reply Remote :=
  match fault r (UploadFile bucket key) with
  | Some AccessDenied => S3ClientError 403
  | Some Unreachable => S3NoConnection
  | None =>
      S3Ok {| objects := <[(bucket, key) := b]> (objects r);
              fault := fault r; error_document := error_document r |}
  end.

(** A GET of a signed URL always yields a response when the store is
    reachable; its status tells whether the body is the object. *)
Definition s3_http_get (r : Remote) (url : presigned_url) : http_reply :=
  match fault r (HttpGet url) with
  | Some Unreachable => HttpNoConnection
  | Some AccessDenied =>
      HttpResponse {| status_code := 403; body := error_document r 403 |}
  | None =>
      match objects r !! (url_bucket url, url_key url) with
      | Some b => HttpResponse {| status_code := 200; body := b |}
      | None => HttpResponse {| status_code := 404; body := error_document r 404 |}
      end
  end.

(** *** Metadata store rows *)

Record DocVer := {
  dv_id : UUID;
  dv_document_id : UUID;
  dv_number : nat;
  dv_file_name : string;
  dv_lang : string
}.

Record Page := {
  pg_id : UUID;
  pg_document_version_id : UUID;
  pg_number : nat;
  pg_lang : string;
  pg_text : Bytes
}.

Record Db := {
  db_versions : list DocVer;
  db_pages : list Page
}.

(** *** Celery signatures and canvas *)

Inductive signature :=
| ocr_page_sig (doc_id doc_ver_id : UUID) (page_number : nat)
    (target_docver_id target_page_id : UUID) (lang : string)
    (preview_width : Z) (queue : string)
| stitch_pages_sig (doc_ver_id target_docver_id : UUID)
    (target_page_ids : list UUID) (queue : string)
| update_db_sig (doc_id doc_ver_id : UUID) (lang : string)
    (target_docver_id : UUID) (target_page_ids : list UUID) (queue : string)
| generate_preview_sig (doc_id : string) (queue : string)
| notify_index_sig (doc_id : string) (queue : string).

(** One link of a [chain]: a single signature or a [group]. *)
Inductive canvas :=
| Task (s : signature)
| Group (l : list signature).

(** [celery_app.send_task(name, kwargs={...}, route_name=...)]. *)
Record sent_task := {
  st_name : string;
  st_doc_id : string;
  st_as_list : bool;          (* kwargs is {"doc_ids": [doc_id]} rather than {"doc_id": doc_id} *)
  st_route_name : string
}.

(** *** The world a task runs in *)

Record World := {
  fs : gmap Path node;
  remote : Remote;
  calls : list remote_call;
  db : Db;
  uuid_source : nat → UUID;        (* the successive values of uuid.uuid4() *)
  uuid_drawn : nat;                (* how many have been drawn *)
  loop_order : nat → list nat;     (* asyncio: completion order of n gathered coroutines *)
  broker : list (list canvas);     (* workflows submitted with apply_async *)
  outbox : list sent_task
}.

Definition set_fs (f : gmap Path node) (w : World) : World :=
  {| fs := f; remote := remote w; calls := calls w; db := db w;
     uuid_source := uuid_source w; uuid_drawn := uuid_drawn w;
     loop_order := loop_order w; broker := broker w; outbox := outbox w |}.

Definition log_call (c : remote_call) (w : World) : World :=
  {| fs := fs w; remote := remote w; calls := calls w ++ [c]; db := db w;
     uuid_source := uuid_source w; uuid_drawn := uuid_drawn w;
     loop_order := loop_order w; broker := broker w; outbox := outbox w |}.

Definition set_remote (r : Remote) (w : World) : World :=
  {| fs := fs w; remote := r; calls := calls w; db := db w;
     uuid_source := uuid_source w; uuid_drawn := uuid_drawn w;
     loop_order := loop_order w; broker := broker w; outbox := outbox w |}.

Definition set_db (d : Db) (w : World) : World :=
  {| fs := fs w; remote := remote w; calls := calls w; db := d;
     uuid_source := uuid_source w; uuid_drawn := uuid_drawn w;
     loop_order := loop_order w; broker := broker w; outbox := outbox w |}.

Definition draw_uuid (w : World) : World :=
  {| fs := fs w; remote := remote w; calls := calls w; db := db w;
     uuid_source := uuid_source w; uuid_drawn := S (uuid_drawn w);
     loop_order := loop_order w; broker := broker w; outbox := outbox w |}.

Definition submit (wf : list canvas) (w : World) : World :=
  {| fs := fs w; remote := remote w; calls := calls w; db := db w;
     uuid_source := uuid_source w; uuid_drawn := uuid_drawn w;
     loop_order := loop_order w; broker := broker w ++ [wf]; outbox := outbox w |}.

Definition post (m : sent_task) (w : World) : World :=
  {| fs := fs w; remote := remote w; calls := calls w; db := db w;
     uuid_source := uuid_source w; uuid_drawn := uuid_drawn w;
     loop_order := loop_order w; broker := broker w; outbox := outbox w ++ [m] |}.

(** ** The monad *)

Definition M (A : Type) : Type := World → result A * World.

#[global] Instance M_ret : MRet M := λ A a w, (Ok a, w).

#[global] Instance M_bind : MBind M := λ A B f m w,
  match m w with
  | (Ok a, w') => f a w'
  | (Raise e, w') => (Raise e, w')
  end.

Definition raise {A} (e : exn) : M A := λ w, (Raise e, w).

Definition get_world : M World := λ w, (Ok w, w).

Definition modify (f : World → World) : M unit := λ w, (Ok tt, f w).

(** [try: m except <caught>: handler]. *)
Definition try_except {A} (m : M A) (caught : exn → bool) (handler : exn → M A) : M A :=
  λ w, match m w with
       | (Raise e, w') => if caught e then handler e w' else (Raise e, w')
       | r => r
       end.

(** ** pathlib operations used by the code *)

Definition path_exists (f : gmap Path node) (p : Path) : bool :=
  bool_decide (is_Some (f !! p)).

Definition path_is_file (f : gmap Path node) (p : Path) : bool :=
  match f !! p with Some (File _) => true | _ => false end.

Definition path_is_dir (f : gmap Path node) (p : Path) : bool :=
  match p with
  | [] => true
  | _ => match f !! p with Some Dir => true | _ => false end
  end.

(** [mkdir(parents=True, exist_ok=True)]: every missing ancestor is
    created; a part that exists as a file makes it fail. *)
Fixpoint mkdir_from (made todo : Path) (f : gmap Path node) : option (gmap Path node) :=
  match todo with
  | [] => Some f
  | c :: todo' =>
      let d := made ++ [c] in
      match f !! d with
      | Some (File _) => None
      | Some Dir => mkdir_from d todo' f
      | None => mkdir_from d todo' (<[d := Dir]> f)
      end
  end.

Definition mkdir_parents (p : Path) : M unit := λ w,
  match mkdir_from [] p (fs w) with
  | Some f => (Ok tt, set_fs f w)
  | None => (Raise (OSError (path_str p)), w)
  end.

(** Writing a whole file at [p]: the parent must be a directory and [p]
    must not be one. *)
Definition write_file (p : Path) (data : Bytes) : M unit := λ w,
  if path_is_dir (fs w) (parent p) then
    match fs w !! p with
    | Some Dir => (Raise (OSError (path_str p)), w)
    | _ => (Ok tt, set_fs (<[p := File data]> (fs w)) w)
    end
  else (Raise (OSError (path_str p)), w).

(** [dir.glob("*")]: the entries directly under [dir]. *)
Definition glob_star (f : gmap Path node) (dir : Path) : list Path :=
  filter (λ q, q ≠ [] ∧ parent q = dir) (elements (dom f)).

(** ** boto3 and httpx calls *)

Definition client_head_object (bucket : option string) (key : string) : M unit := λ w,
  let w' := log_call (HeadObject bucket key) w in
  match s3_head (remote w) bucket key with
  | S3Ok _ => (Ok tt, w')
  | S3ClientError c => (Raise (ClientError c), w')
  | S3NoConnection => (Raise EndpointConnectionError, w')
  end.

Definition client_download_file (bucket : option string) (key : string) (filename : Path)
  : M unit := λ w,
  let w' := log_call (DownloadFile bucket key) w in
  match s3_get (remote w) bucket key with
  | S3Ok b => write_file filename b w'
  | S3ClientError c => (Raise (ClientError c), w')
  | S3NoConnection => (Raise EndpointConnectionError, w')
  end.

Definition client_upload_file (filename : Path) (bucket : option string) (key : string)
  : M unit := λ w,
  match fs w !! filename with
  | Some (File b) =>
      let w' := log_call (UploadFile bucket key) w in
      match s3_put (remote w) bucket key b with
      | S3Ok r => (Ok tt, set_remote r w')
      | S3ClientError c => (Raise (ClientError c), w')
      | S3NoConnection => (Raise EndpointConnectionError, w')
      end
  | _ => (Raise (OSError (path_str filename)), w)
  end.

(** [await client.get(url, follow_redirects=True)]. *)
Definition client_get (url : presigned_url) : M http_response := λ w,
  let w' := log_call (HttpGet url) w in
  match s3_http_get (remote w) url with
  | HttpResponse resp => (Ok resp, w')
  | HttpNoConnection => (Raise ConnectError, w')
  end.

(** [asyncio.gather] of a list of coroutines on one event loop: the
    coroutines are run to completion in the order the loop completes
    them, [loop_order w n] listing the indices of the [n] coroutines in
    that order; the first exception is the one the caller sees, and
    what has not completed by then is cancelled when [asyncio.run]
    returns.  An index outside the list, which a loop never yields, is
    an error. *)
Definition gather {A} (coros : list (M A)) : M (list A) := λ w,
  mapM (λ i, default (raise (OSError "gather")) (coros !! i))
       (loop_order w (length coros)) w.

(** [for x in l: body x]. *)
Fixpoint for_each {A} (l : list A) (body : A → M unit) : M unit :=
  match l with
  | [] => mret tt
  | x :: l' => body x ;; for_each l' body
  end.

(** ** Configuration and the imported modules *)

(** [config.get_settings()]: the process-wide settings object. *)
Class Settings := {
  papermerge__s3__bucket_name : option string;
  aws_access_key_id : option string;
  aws_secret_access_key : option string;
  aws_region_name : option string;
  s3_endpoint_url : option string;
  papermerge__main__prefix : string;
  papermerge__main__media_root : string
}.

(** [ocrworker.constants]. *)
Class Const := {
  PAGE_PDF : string;
  OCR : string;
  PAGES : string;
  WORKER_OCR_DOCUMENT : string;
  INDEX_ADD_DOCS : string;
  S3_WORKER_GENERATE_PREVIEW : string
}.

(** [ocrworker.plib]: where an entity's files live, relative to the
    media root and as absolute paths. *)
Class Plib := {
  rel2abs : Path → Path;
  docver_path : UUID → string → Path;
  abs_docver_path : UUID → string → Path;
  page_path : UUID → Path;
  abs_page_path : UUID → Path;
  page_txt_path : UUID → Path;
  abs_page_txt_path : UUID → Path
}.

(** [mimetypes.guess_type], first component of its result. *)
Class Mimetypes := {
  guess_type : Path → option string
}.

(** Python truthiness of an optional string setting. *)
Definition truthy (s : option string) : bool :=
  match s with
  | Some s => negb (String.eqb s "")
  | None => false
  end.

(** ** s3.py *)

Section S3.
Context {cfg : Settings} {cst : Const} {pl : Plib}.

Definition get_bucket_name : option string := papermerge__s3__bucket_name.

Definition get_prefix : string := papermerge__main__prefix.

Definition get_media_root : string := papermerge__main__media_root.

Definition is_enabled : bool :=
  let s3_settings :=
    [papermerge__s3__bucket_name; aws_access_key_id; aws_secret_access_key] in
  forallb truthy s3_settings.

(** The decorator: the wrapped function is not entered when the module
    is disabled, and [None] is returned. *)
Definition skip_if_s3_disabled (func : M unit) : M unit :=
  if is_enabled then func else mret tt.

Definition is_ClientError (e : exn) : bool :=
  match e with
  | ClientError _ => true
  | _ => false
  end.

Definition obj_exists (keyname : string) : M bool :=
  try_except
    (client_head_object get_bucket_name keyname ;; mret true)
    is_ClientError
    (λ _, mret false).

Definition download_docver (docver_id : UUID) (file_name : string) : M unit :=
  skip_if_s3_disabled (
    let doc_ver_path := abs_docver_path docver_id file_name in
    let keyname := path_str (Path_of get_prefix ++ docver_path docver_id file_name) in
    w ← get_world;
    (if negb (path_exists (fs w) doc_ver_path) then
       found ← obj_exists keyname;
       if negb found then
         (* no local version + no s3 version *)
         raise (S3DocumentNotFound ("S3 key " +:+ keyname +:+ " not found"))
       else mret tt
     else mret tt) ;;
    mkdir_parents (parent doc_ver_path) ;;
    client_download_file get_bucket_name keyname doc_ver_path).

Definition upload_file (rel_file_path : Path) : M unit :=
  skip_if_s3_disabled (
    let keyname := path_str (Path_of get_prefix ++ rel_file_path) in
    let target := rel2abs rel_file_path in
    w ← get_world;
    if negb (path_exists (fs w) target) then mret tt
    else if negb (path_is_file (fs w) target) then mret tt
    else client_upload_file target get_bucket_name keyname).

Definition upload_page_dir (page_id : UUID) : M unit :=
  skip_if_s3_disabled (
    w ← get_world;
    let page_dir := glob_star (fs w) (abs_page_path page_id) in
    for_each page_dir (λ path,
      w' ← get_world;
      if path_is_file (fs w') path then
        let rel_file_path := page_path page_id ++ [default "" (last path)] in
        upload_file rel_file_path
      else mret tt)).

Definition download_page_txt (page_id : UUID) : M unit :=
  skip_if_s3_disabled (
    let abs_path := abs_page_txt_path page_id in
    w ← get_world;
    if path_exists (fs w) abs_path then mret tt
    else
      let keyname := path_str (Path_of get_prefix ++ page_txt_path page_id) in
      found ← obj_exists keyname;
      if negb found then raise (ValueError (keyname +:+ " not found on S3"))
      else
        mkdir_parents (parent abs_path) ;;
        client_download_file get_bucket_name keyname abs_path).

Definition get_pdf_page (page_id : UUID) : M Bytes :=
  let key := path_str (Path_of get_prefix ++ page_path page_id ++ [PAGE_PDF]) in
  let request_url :=
    {| url_bucket := get_bucket_name; url_key := key; url_expires_in := 30 |} in
  resp ← client_get request_url;
  mret (body resp).

Definition download_one_pdf_page (page_id : UUID) : M unit :=
  page_data ← get_pdf_page page_id;
  let file_path := abs_page_path page_id ++ [PAGE_PDF] in
  mkdir_parents (parent file_path) ;;
  write_file file_path page_data.

Definition supervisor (page_ids : list UUID) : M nat :=
  let to_download := map download_one_pdf_page page_ids in
  res ← gather to_download;
  mret (length res).

Definition download_many_pdf_pages (page_ids : list UUID) : M nat :=
  supervisor page_ids.

(** The pages of [target_page_ids] whose PDF is not found locally, in
    the order of the list. *)
Definition queued_for_download (f : gmap Path node) (target_page_ids : list UUID)
  : list UUID :=
  filter (λ page_id, path_exists f (abs_page_path page_id ++ [PAGE_PDF]) = false)
         target_page_ids.

Definition download_pdf_pages (target_page_ids : list UUID) : M unit :=
  skip_if_s3_disabled (
    w ← get_world;
    let to_download := queued_for_download (fs w) target_page_ids in
    download_many_pdf_pages to_download ;; mret tt).

End S3.

(** ** Collaborators of tasks.py *)

(** [ocrworker.ocr.run_one_page_ocr]: the OCR engine, called with the
    source file, the output path, the language, the sidecar directory,
    the target page id, the page number and the preview width. *)
Class OcrEngine := {
  run_one_page_ocr : Path → Path → string → Path → UUID → nat → Z → M unit
}.

(** The PDF library behind the merge routine: a file read as its pages,
    and pages saved as a file. *)
Class PdfLib := {
  pdf_open : Bytes → option (list Bytes);
  pdf_save : list Bytes → Bytes
}.

(** Modelled from the spec: [ocrworker.utils.stitch_pdf] is not among
    the sources; the PDF merge collaborator, "given an ordered list of
    source file paths and a destination path, produces one concatenated
    PDF at the destination". *)
Definition stitch_pdf {pdf : PdfLib} (srcs : list Path) (dst : Path) : M unit :=
  w ← get_world;
  pages ← mapM (λ src,
             match fs w !! src with
             | Some (File b) =>
                 match pdf_open b with
                 | Some ps => mret ps
                 | None => raise (PdfError (path_str src))
                 end
             | _ => raise (OSError (path_str src))
             end) srcs;
  mkdir_parents (parent dst) ;;
  write_file dst (pdf_save (concat pages)).

(** *** Metadata store

    Modelled from the spec: [ocrworker.db] is not among the sources.
    "getLatestVersion(documentId) -> DocumentVersion",
    "getPages(versionId) -> [Page]", "getVersion(versionId) ->
    DocumentVersion", "commitNewVersion(...)", "attachText(pageId,
    text)"; a page has a "1-based page number within its version". *)

Definition latest (vs : list DocVer) : option DocVer :=
  foldl (λ best v,
           match best with
           | Some b => if bool_decide (dv_number b ≤ dv_number v) then Some v else Some b
           | None => Some v
           end) None vs.

Definition db_get_last_version (doc_id : UUID) : M DocVer := λ w,
  match latest (filter (λ v, dv_document_id v = doc_id) (db_versions (db w))) with
  | Some v => (Ok v, w)
  | None => (Raise NoResultFound, w)
  end.

Definition db_get_doc_ver (doc_ver_id : UUID) : M DocVer := λ w,
  match filter (λ v, dv_id v = doc_ver_id) (db_versions (db w)) with
  | v :: _ => (Ok v, w)
  | [] => (Raise NoResultFound, w)
  end.

Definition db_get_pages (doc_ver_id : UUID) : M (list Page) := λ w,
  (Ok (filter (λ p, pg_document_version_id p = doc_ver_id) (db_pages (db w))), w).

Definition db_increment_doc_ver (document_id target_docver_uuid : UUID)
    (target_page_uuids : list UUID) (lang : string) : M unit :=
  last_ver ← db_get_last_version document_id;
  modify (λ w,
    set_db {| db_versions := db_versions (db w) ++
                [ {| dv_id := target_docver_uuid;
                     dv_document_id := document_id;
                     dv_number := S (dv_number last_ver);
                     dv_file_name := dv_file_name last_ver;
                     dv_lang := lang |} ];
              db_pages := db_pages (db w) ++
                imap (λ index page_uuid,
                        {| pg_id := page_uuid;
                           pg_document_version_id := target_docver_uuid;
                           pg_number := S index;
                           pg_lang := lang;
                           pg_text := [] |}) target_page_uuids |} w).

(** The i-th stream is read into the i-th page of the version. *)
Fixpoint attach_texts (doc_ver_id : UUID) (ps : list Page) (streams : list Bytes)
  : list Page :=
  match ps with
  | [] => []
  | p :: ps' =>
      if decide (pg_document_version_id p = doc_ver_id) then
        match streams with
        | s :: streams' =>
            {| pg_id := pg_id p; pg_document_version_id := doc_ver_id;
               pg_number := pg_number p; pg_lang := pg_lang p; pg_text := s |}
            :: attach_texts doc_ver_id ps' streams'
        | [] => p :: ps'
        end
      else p :: attach_texts doc_ver_id ps' streams
  end.

Definition db_update_doc_ver_text (doc_ver_id : UUID) (streams : list Bytes) : M unit :=
  modify (λ w,
    set_db {| db_versions := db_versions (db w);
              db_pages := attach_texts doc_ver_id (db_pages (db w)) streams |} w).

(** *** Python built-ins *)

Definition uuid4 : M UUID := λ w,
  (Ok (uuid_source w (uuid_drawn w)), draw_uuid w).

Definition lower_ascii (c : ascii) : ascii :=
  let n := nat_of_ascii c in
  if bool_decide (65 ≤ n ≤ 90)%nat then ascii_of_nat (n + 32) else c.

(** [str.lower] on ASCII text. *)
Fixpoint lower (s : string) : string :=
  match s with
  | EmptyString => EmptyString
  | String c s' => String (lower_ascii c) (lower s')
  end.

(** [open(path)], read whole when the stream is consumed. *)
Definition open_text (p : Path) : M Bytes := λ w,
  match fs w !! p with
  | Some (File b) => (Ok b, w)
  | _ => (Raise (OSError (path_str p)), w)
  end.

(** ** tasks.py *)

Section Tasks.
Context {cfg : Settings} {cst : Const} {pl : Plib} {mt : Mimetypes}
  {ocr : OcrEngine} {pdf : PdfLib}.

Definition prefixed (name : string) : string :=
  let pref := papermerge__main__prefix in
  if negb (String.eqb pref "") then pref +:+ "_" +:+ name else name.

(** [document_id] is the text of a UUID, and [uuid.UUID(document_id)]
    is that identifier. *)
Definition ocr_document_task (document_id : string) (lang : string) : M unit :=
  doc_ver ← db_get_last_version document_id;
  pages ← db_get_pages (dv_id doc_ver);
  target_docver_uuid ← uuid4;
  target_page_uuids ← mapM (λ _ : Page, uuid4) pages;
  let lang := lower lang in
  let doc_ver_path := abs_docver_path (dv_id doc_ver) (dv_file_name doc_ver) in
  download_docver (dv_id doc_ver) (dv_file_name doc_ver) ;;
  let _type := guess_type doc_ver_path in
  if bool_decide (_type ∉ [Some "application/pdf"; Some "application/image"]) then
    raise (ValueError ("Unsupported format for document: " +:+ path_str doc_ver_path))
  else
    let per_page_ocr_tasks :=
      imap (λ index target_page_uuid,
              ocr_page_sig (dv_id doc_ver) (dv_id doc_ver) (index + 1)
                target_docver_uuid target_page_uuid lang 300 (prefixed OCR))
           target_page_uuids in
    let workflow :=
      [ Group per_page_ocr_tasks;
        Task (stitch_pages_sig (dv_id doc_ver) target_docver_uuid target_page_uuids
                (prefixed OCR));
        Task (update_db_sig document_id (dv_id doc_ver) lang target_docver_uuid
                target_page_uuids (prefixed OCR));
        Task (generate_preview_sig document_id (prefixed OCR));
        Task (notify_index_sig document_id (prefixed OCR)) ] in
    modify (submit workflow).

Definition ocr_page_task (doc_ver_id target_page_id : UUID) (lang : string)
    (page_number : nat) (preview_width : Z) : M unit :=
  doc_ver ← db_get_doc_ver doc_ver_id;
  let sidecar_dir := [papermerge__main__media_root; OCR; PAGES] in
  let output_dir := abs_page_path target_page_id in
  w ← get_world;
  (if negb (path_exists (fs w) output_dir) then mkdir_parents output_dir else mret tt) ;;
  w ← get_world;
  (if negb (path_exists (fs w) (parent sidecar_dir)) then mkdir_parents (parent sidecar_dir)
   else mret tt) ;;
  download_docver (dv_id doc_ver) (dv_file_name doc_ver) ;;
  run_one_page_ocr
    (abs_docver_path (dv_id doc_ver) (dv_file_name doc_ver))
    (output_dir ++ [PAGE_PDF]) lang sidecar_dir target_page_id page_number
    preview_width ;;
  (* upload entire page dir *)
  upload_page_dir target_page_id.

Definition stitch_pages_task (doc_ver_id target_docver_id : UUID)
    (target_page_ids : list UUID) : M unit :=
  doc_ver ← db_get_doc_ver doc_ver_id;
  let dst := abs_docver_path target_docver_id (dv_file_name doc_ver) in
  let srcs := map (λ page_id, abs_page_path page_id ++ [PAGE_PDF]) target_page_ids in
  download_pdf_pages target_page_ids ;;
  stitch_pdf srcs dst ;;
  (* same as dst, but relative *)
  upload_file (docver_path target_docver_id (dv_file_name doc_ver)).

Definition update_db_task (doc_id : UUID) (lang : string) (target_docver_id : UUID)
    (target_page_ids : list UUID) : M unit :=
  db_increment_doc_ver doc_id target_docver_id target_page_ids lang ;;
  (* these are newly created pages *)
  pages ← db_get_pages target_docver_id;
  streams ← mapM (λ page,
               let abs_file_path := abs_page_txt_path (pg_id page) in
               download_page_txt (pg_id page) ;;
               w ← get_world;
               if path_exists (fs w) abs_file_path then open_text abs_file_path
               else (* not found: page text set to empty string *) mret [])
             pages;
  db_update_doc_ver_text target_docver_id streams.

Definition notify_index_task (doc_id : string) : M unit :=
  modify (post {| st_name := INDEX_ADD_DOCS; st_doc_id := doc_id;
                  st_as_list := true; st_route_name := "i3" |}).

Definition generate_preview (doc_id : string) : M unit :=
  modify (post {| st_name := S3_WORKER_GENERATE_PREVIEW; st_doc_id := doc_id;
                  st_as_list := false; st_route_name := "s3preview" |}).

(** What a worker runs for a signature. *)
Definition run_signature (s : signature) : M unit :=
  match s with
  | ocr_page_sig _ doc_ver_id page_number _ target_page_id lang preview_width _ =>
      ocr_page_task doc_ver_id target_page_id lang page_number preview_width
  | stitch_pages_sig doc_ver_id target_docver_id target_page_ids _ =>
      stitch_pages_task doc_ver_id target_docver_id target_page_ids
  | update_db_sig doc_id _ lang target_docver_id target_page_ids _ =>
      update_db_task doc_id lang target_docver_id target_page_ids
  | generate_preview_sig doc_id _ => generate_preview doc_id
  | notify_index_sig doc_id _ => notify_index_task doc_id
  end.

End Tasks.

(** ** Celery: automatic retry of a task *)

Record task_options := {
  autoretry_for : exn → bool;
  max_retries : nat;
  countdown : Z
}.

Inductive outcome :=
| Succeeded
| Retry (delay : Z) (exc : exn)   (* the message is sent again, to run after [delay] seconds *)
| Failure (exc : exn).

(** One delivery of a task whose request carries [request_retries].
    An exception of [autoretry_for] calls [task.retry(exc=exc,
    **retry_kwargs)], which re-raises [exc] once
    [request.retries + 1 > max_retries]. *)
Definition run_task (opts : task_options) (request_retries : nat) (body : M unit)
  : World → outcome * World := λ w,
  match body w with
  | (Ok _, w') => (Succeeded, w')
  | (Raise e, w') =>
      if autoretry_for opts e then
        if bool_decide (max_retries opts < request_retries + 1)%nat
        then (Failure e, w')
        else (Retry (countdown opts) e, w')
      else (Failure e, w')
  end.

(** The deliveries of one submission: [env k] is what the rest of the
    system does to the world while the message waits for delivery
    [k + 1]. *)
Fixpoint deliver (fuel : nat) (opts : task_options) (env : nat → World → World)
    (request_retries : nat) (body : M unit) (w : World) : list outcome * World :=
  match fuel with
  | O => ([], w)
  | S fuel' =>
      match run_task opts request_retries body w with
      | (Retry d e, w') =>
          let '(rest, w'') :=
            deliver fuel' opts env (S request_retries) body (env request_retries w') in
          (Retry d e :: rest, w'')
      | (o, w') => ([o], w')
      end
  end.

Definition is_S3DocumentNotFound (e : exn) : bool :=
  match e with
  | S3DocumentNotFound _ => true
  | _ => false
  end.

(** The decorator of [ocr_document_task]. *)
Definition ocr_document_task_options : task_options :=
  {| autoretry_for := is_S3DocumentNotFound;
     (* Wait for 10 seconds before starting each new try. At most retry 6 times. *)
     max_retries := 6;
     countdown := 10 |}.

Definition submit_ocr_document {cfg : Settings} {cst : Const} {pl : Plib} {mt : Mimetypes}
    (env : nat → World → World) (document_id lang : string) (w : World)
  : list outcome * World :=
  deliver (S (max_retries ocr_document_task_options)) ocr_document_task_options env 0
    (ocr_document_task document_id lang) w.

(** ** Celery: execution of a chain

    A chain runs its links one after the other; the members of a group
    are started and completed in any order, on any worker, and the next
    link is entered once every member of the current one has completed.
    A member that fails never completes. *)

Definition members (c : canvas) : list signature :=
  match c with
  | Task s => [s]
  | Group l => l
  end.

Definition task_at (wf : list canvas) (link member : nat) : option signature :=
  c ← wf !! link; members c !! member.







(** The draws of [ocr_document_task] (the two assignments that follow
    the metadata lookups), on their own. *)
Definition allocate_targets (pages : list Page) : M (UUID * list UUID) :=
  target_docver_uuid ← uuid4;
  target_page_uuids ← mapM (λ _ : Page, uuid4) pages;
  mret (target_docver_uuid, target_page_uuids).

(** The world after [n] draws, and the values drawn. *)
Definition draws (n : nat) (w : World) : World :=
  {| fs := fs w; remote := remote w; calls := calls w; db := db w;
     uuid_source := uuid_source w; uuid_drawn := uuid_drawn w + n;
     loop_order := loop_order w; broker := broker w; outbox := outbox w |}.

Definition drawn_ids (w : World) (n : nat) : list UUID :=
  map (λ i, uuid_source w (uuid_drawn w + i)%nat) (seq 0 n).

(** The workflow [ocr_document_task] builds from the source version and
    the identifiers it drew. *)
Definition ocr_workflow {cfg : Settings} {cst : Const} (doc_ver : DocVer)
    (document_id lang : string) (target_docver_uuid : UUID)
    (target_page_uuids : list UUID) : list canvas :=
  [ Group (imap (λ index target_page_uuid,
                   ocr_page_sig (dv_id doc_ver) (dv_id doc_ver) (index + 1)
                     target_docver_uuid target_page_uuid lang 300 (prefixed OCR))
                target_page_uuids);
    Task (stitch_pages_sig (dv_id doc_ver) target_docver_uuid target_page_uuids
            (prefixed OCR));
    Task (update_db_sig document_id (dv_id doc_ver) lang target_docver_uuid
            target_page_uuids (prefixed OCR));
    Task (generate_preview_sig document_id (prefixed OCR));
    Task (notify_index_sig document_id (prefixed OCR)) ].

(** The target identifiers a signature carries. *)
Definition sig_targets (s : signature) : option (UUID * list UUID) :=
  match s with
  | ocr_page_sig _ _ _ target_docver_id target_page_id _ _ _ =>
      Some (target_docver_id, [target_page_id])
  | stitch_pages_sig _ target_docver_id target_page_ids _ =>
      Some (target_docver_id, target_page_ids)
  | update_db_sig _ _ _ target_docver_id target_page_ids _ =>
      Some (target_docver_id, target_page_ids)
  | _ => None
  end.

(** Two worlds that differ at most by the local files and the log of
    requests. *)
Definition same_but_fs_calls (w w' : World) : Prop :=
  remote w' = remote w ∧ db w' = db w ∧ uuid_source w' = uuid_source w ∧
  uuid_drawn w' = uuid_drawn w ∧ loop_order w' = loop_order w ∧
  broker w' = broker w ∧ outbox w' = outbox w.

(** The signed URL [get_pdf_page] builds for a page, and the path
    [download_one_pdf_page] writes. *)
Definition page_pdf_url {cfg : Settings} {cst : Const} {pl : Plib} (page_id : UUID)
  : presigned_url :=
  {| url_bucket := get_bucket_name;
     url_key := path_str (Path_of get_prefix ++ page_path page_id ++ [PAGE_PDF]);
     url_expires_in := 30 |}.

Definition page_pdf_file {cst : Const} {pl : Plib} (page_id : UUID) : Path :=
  abs_page_path page_id ++ [PAGE_PDF].

(** The coroutine [gather] runs for index [i] of a batch. *)
Definition coro_at {cfg : Settings} {cst : Const} {pl : Plib} (page_ids : list UUID)
    (i : nat) : M unit :=
  default (raise (OSError "gather")) (map download_one_pdf_page page_ids !! i).



(** The number of pages of a version. *)
Definition page_count (doc_ver : DocVer) (w : World) : nat :=
  length (filter (λ p, pg_document_version_id p = dv_id doc_ver) (db_pages (db w))).

(** The condition under which [download_docver] raises
    [S3DocumentNotFound] for the latest version of a document: the
    mirror is enabled, the file is not on disk, and the HEAD request is
    answered by an error response. *)
Definition source_reported_missing {cfg : Settings} {pl : Plib}
    (document_id : string) (w : World) : Prop :=
  is_enabled = true ∧
  ∃ doc_ver, fst (db_get_last_version document_id w) = Ok doc_ver ∧
    path_exists (fs w) (abs_docver_path (dv_id doc_ver) (dv_file_name doc_ver)) = false ∧
    ∃ code, s3_head (remote w) get_bucket_name
              (path_str (Path_of get_prefix ++
                 docver_path (dv_id doc_ver) (dv_file_name doc_ver)))
            = S3ClientError code.

(** The key under which a path relative to the media root is mirrored. *)
Definition mirror_key {cfg : Settings} (rel : Path) : string :=
  path_str (Path_of get_prefix ++ rel).

(** Every path of the local files of [w] is still there in [w']. *)
Definition fs_grows (w w' : World) : Prop :=
  ∀ q, path_exists (fs w) q = true → path_exists (fs w') q = true.

(** The world in which delivery [r + k] of a task starts, when delivery
    [r] starts in [w] and every delivery before [r + k] ends by handing
    the world over to the next one. *)
Fixpoint delivery_world (env : nat → World → World) (body : M unit) (r k : nat)
    (w : World) : World :=
  match k with
  | O => w
  | S k' => delivery_world env body (S r) k' (env r (snd (body w)))
  end.

(** [w'] has every local path of [w], and the same bucket. *)
Definition cache_grows (w w' : World) : Prop :=
  fs_grows w w' ∧ remote w' = remote w.

(** The upload request [upload_page_dir] sends for an entry of the
    page directory: the key is the mirrored relative page path followed
    by the name of the entry. *)
Definition page_file_upload {cfg : Settings} {pl : Plib} (page_id : UUID) (path : Path)
  : remote_call :=
  UploadFile get_bucket_name (mirror_key (page_path page_id ++ [default "" (last path)])).

(** The text [update_db_task] reads for a page whose sidecar needs no
    download: the content of the sidecar file, or nothing. *)
Definition sidecar_text {pl : Plib} (f : gmap Path node) (page : Page) : Bytes :=
  match f !! abs_page_txt_path (pg_id page) with
  | Some (File b) => b
  | _ => []
  end.

(** ** A concrete deployment, for the examples *)

Module Sample.

Definition enabled : Settings :=
  {| papermerge__s3__bucket_name := Some "papermerge";
     aws_access_key_id := Some "AKIAEXAMPLE";
     aws_secret_access_key := Some "secret";
     aws_region_name := Some "eu-central-1";
     s3_endpoint_url := None;
     papermerge__main__prefix := "demo";
     papermerge__main__media_root := "/var/media" |}.

(** Nothing about the object store is configured. *)
Definition disabled : Settings :=
  {| papermerge__s3__bucket_name := None;
     aws_access_key_id := None;
     aws_secret_access_key := None;
     aws_region_name := None;
     s3_endpoint_url := None;
     papermerge__main__prefix := "";
     papermerge__main__media_root := "/var/media" |}.

#[export] Instance const : Const :=
  {| PAGE_PDF := "page.pdf";
     OCR := "ocr";
     PAGES := "pages";
     WORKER_OCR_DOCUMENT := "ocr_document_task";
     INDEX_ADD_DOCS := "index_add_docs";
     S3_WORKER_GENERATE_PREVIEW := "s3_worker_generate_preview" |}.

#[export] Instance plib : Plib :=
  {| rel2abs := λ p, "/var/media" :: p;
     docver_path := λ id name, ["docvers"; id; name];
     abs_docver_path := λ id name, ["/var/media"; "docvers"; id; name];
     page_path := λ id, ["pages"; id];
     abs_page_path := λ id, ["/var/media"; "pages"; id];
     page_txt_path := λ id, ["pages"; id; "page.txt"];
     abs_page_txt_path := λ id, ["/var/media"; "pages"; id; "page.txt"] |}.

(** The type is guessed from the extension of the file name. *)
#[export] Instance mimetypes : Mimetypes :=
  {| guess_type := λ p,
       match last p with
       | Some "invoice.pdf" => Some "application/pdf"
       | Some "scan.png" => Some "image/png"
       | Some "notes.txt" => Some "text/plain"
       | _ => None
       end |}.

(** A toy PDF library: every byte of a file is one page. *)
#[export] Instance pdflib : PdfLib :=
  {| pdf_open := λ b, Some (map (λ x, [x]) b);
     pdf_save := λ ps, concat ps |}.

Definition store (objs : gmap (option string * string) Bytes)
    (flt : remote_call → option s3_fault) : Remote :=
  {| objects := objs; fault := flt;
     error_document := λ code,
       if decide (code = 404%Z) then [Byte.x34; Byte.x30; Byte.x34]
       else [Byte.x34; Byte.x30; Byte.x33] |}.

Definition no_fault : remote_call → option s3_fault := λ _, None.

Definition world (f : gmap Path node) (r : Remote) (d : Db) : World :=
  {| fs := f; remote := r; calls := []; db := d;
     uuid_source := λ n, "uuid-" +:+ pretty n; uuid_drawn := 0;
     loop_order := λ n, seq 0 n;
     broker := []; outbox := [] |}.

(** Document ["doc"] has one version, ["v1"], of one page. *)
Definition db1 (file_name : string) : Db :=
  {| db_versions :=
       [ {| dv_id := "v1"; dv_document_id := "doc"; dv_number := 1;
            dv_file_name := file_name; dv_lang := "deu" |} ];
     db_pages :=
       [ {| pg_id := "p1"; pg_document_version_id := "v1"; pg_number := 1;
            pg_lang := "deu"; pg_text := [] |} ] |}.

Definition pdf_bytes : Bytes := [Byte.x25; Byte.x50].

Definition v1_key : option string * string :=
  (Some "papermerge", "demo/docvers/v1/invoice.pdf").


(** The source file of ["v1"] is in the bucket and not on disk. *)
Definition cold : World :=
  world ∅ (store {[ v1_key := pdf_bytes ]} no_fault) (db1 "invoice.pdf").

(** The same, once [download_docver] has run. *)
Definition warm : World :=
  snd (download_docver (cfg := enabled) "v1" "invoice.pdf" cold).

(** The object is in the bucket, but every HEAD request is refused. *)
Definition head_refused : World :=
  world ∅ (store {[ v1_key := pdf_bytes ]}
             (λ c, match c with HeadObject _ _ => Some AccessDenied | _ => None end))
        (db1 "invoice.pdf").

(** The source file of ["v1"] is neither on disk nor in the bucket. *)
Definition nowhere (file_name : string) : World :=
  world ∅ (store ∅ no_fault) (db1 file_name).

(** While the task waits for its next delivery, the upload of the
    source file completes. *)
Definition upload_arrives : nat → World → World :=
  λ _, set_remote (store {[ v1_key := pdf_bytes ]} no_fault).

Definition nothing_happens : nat → World → World := λ _ w, w.


(** Page ["a"] has its PDF on disk; ["b"] and ["c"] do not, the bucket
    has no PDF for ["b"], and the store cannot be reached for ["c"]. *)
Definition three_pages : World :=
  {| fs := {[ ["/var/media"; "pages"; "a"; "page.pdf"] := File pdf_bytes;
              ["/var/media"; "pages"; "a"] := Dir;
              ["/var/media"; "pages"] := Dir;
              ["/var/media"] := Dir ]};
     remote := store ∅ (λ c, match c with
                             | HttpGet u =>
                                 if decide (url_key u = "demo/pages/c/page.pdf")
                                 then Some Unreachable else None
                             | _ => None
                             end);
     calls := []; db := db1 "invoice.pdf";
     uuid_source := λ n, "uuid-" +:+ pretty n; uuid_drawn := 0;
     loop_order := λ n, reverse (seq 0 n);
     broker := []; outbox := [] |}.

Definition v1_row : DocVer :=
  {| dv_id := "v1"; dv_document_id := "doc"; dv_number := 1;
     dv_file_name := "invoice.pdf"; dv_lang := "deu" |}.


(** The file of ["v1"] is on disk (with its directories) and the bucket
    is empty. *)
Definition local_only : World :=
  world {[ ["/var/media"; "docvers"; "v1"; "invoice.pdf"] := File pdf_bytes;
           ["/var/media"; "docvers"; "v1"] := Dir;
           ["/var/media"; "docvers"] := Dir;
           ["/var/media"] := Dir ]}
        (store ∅ no_fault) (db1 "invoice.pdf").

(** Another worker: nothing on disk, and the bucket as [upload_file]
    left it. *)
Definition other_worker : World :=
  world ∅ (remote (snd (upload_file (cfg := enabled) ["docvers"; "v1"; "invoice.pdf"]
                          local_only)))
        (db1 "invoice.pdf").

(** The text of page ["p1"] is in the bucket and not on disk. *)
Definition txt_cold : World :=
  world ∅ (store {[ (Some "papermerge", "demo/pages/p1/page.txt") := pdf_bytes ]} no_fault)
        (db1 "invoice.pdf").

(** The PDFs of pages ["b"] and ["c"] are in the bucket and not on
    disk; the event loop completes the later coroutine first. *)
Definition two_pages : World :=
  {| fs := ∅;
     remote := store {[ (Some "papermerge", "demo/pages/b/page.pdf") := pdf_bytes;
                        (Some "papermerge", "demo/pages/c/page.pdf") := pdf_bytes ]}
                     no_fault;
     calls := []; db := db1 "invoice.pdf";
     uuid_source := λ n, "uuid-" +:+ pretty n; uuid_drawn := 0;
     loop_order := λ n, reverse (seq 0 n);
     broker := []; outbox := [] |}.

(** The directory of page ["p1"] after OCR: two files and a
    sub-directory. *)
Definition page_dir : World :=
  world {[ ["/var/media"; "pages"; "p1"; "page.pdf"] := File pdf_bytes;
           ["/var/media"; "pages"; "p1"; "page.txt"] := File [];
           ["/var/media"; "pages"; "p1"; "tmp"] := Dir;
           ["/var/media"; "pages"; "p1"] := Dir;
           ["/var/media"; "pages"] := Dir;
           ["/var/media"] := Dir ]}
        (store ∅ no_fault) (db1 "invoice.pdf").

(** The PDF of page ["p1"] is on a worker's disk; another worker has
    nothing on disk and sees the bucket as [upload_file] left it. *)
Definition page_elsewhere : World :=
  world ∅ (remote (snd (upload_file (cfg := enabled) ["pages"; "p1"; "page.pdf"]
                          page_dir)))
        (db1 "invoice.pdf").

(** The store cannot be reached. *)
Definition unreachable : World :=
  world ∅ (store ∅ (λ _, Some Unreachable)) (db1 "invoice.pdf").

End Sample.

(** * Properties of the storage mirror *)

Section MirrorFacts.
Context {cfg : Settings} {cst : Const} {pl : Plib}.

Lemma is_enabled_unset :
  truthy papermerge__s3__bucket_name = false ∨
  truthy aws_access_key_id = false ∨
  truthy aws_secret_access_key = false →
  is_enabled = false.
Proof.
  unfold is_enabled; simpl.
  intros [-> | [-> | ->]]; rewrite ?andb_false_r; reflexivity.
Qed.

Lemma skip_disabled (func : M unit) w :
  is_enabled = false → skip_if_s3_disabled func w = (Ok tt, w).
Proof. unfold skip_if_s3_disabled. intros ->. reflexivity. Qed.

Lemma skip_enabled (func : M unit) :
  is_enabled = true → skip_if_s3_disabled func = func.
Proof. unfold skip_if_s3_disabled. intros ->. reflexivity. Qed.

(** C9: with the bucket name, the access key id or the secret access
    key unset, each of the five mirror operations (download of a
    document version, upload of a page directory, upload of a file,
    download of a page text, batched download of page PDFs) returns
    [None] and leaves the world as it found it: no request is logged
    and the file system is the same. *)
Theorem disabled_mirror_is_noop (w : World) (docver_id page_id : UUID)
    (file_name : string) (rel_file_path : Path) (target_page_ids : list UUID) :
  truthy papermerge__s3__bucket_name = false ∨
  truthy aws_access_key_id = false ∨
  truthy aws_secret_access_key = false →
  download_docver docver_id file_name w = (Ok tt, w) ∧
  upload_page_dir page_id w = (Ok tt, w) ∧
  upload_file rel_file_path w = (Ok tt, w) ∧
  download_page_txt page_id w = (Ok tt, w) ∧
  download_pdf_pages target_page_ids w = (Ok tt, w).
Proof.
  intros Hunset. apply is_enabled_unset in Hunset.
  unfold download_docver, upload_page_dir, upload_file, download_page_txt,
    download_pdf_pages.
  repeat split; apply skip_disabled; exact Hunset.
Qed.

(** What [obj_exists] answers, by the reply to its HEAD request. *)
Lemma obj_exists_run (keyname : string) (w : World) :
  obj_exists keyname w =
  (match s3_head (remote w) get_bucket_name keyname with
   | S3Ok _ => Ok true
   | S3ClientError _ => Ok false
   | S3NoConnection => Raise EndpointConnectionError
   end, log_call (HeadObject get_bucket_name keyname) w).
Proof.
  unfold obj_exists, try_except, client_head_object, mbind, M_bind, mret, M_ret.
  destruct (s3_head (remote w) get_bucket_name keyname); reflexivity.
Qed.

(** C4, as the code has it: [obj_exists] answers [False] exactly when
    the HEAD request is answered by an error response of the service,
    whatever its status (not found, access denied, ...), and [True]
    exactly when it succeeds; it raises exactly when no response comes
    back, and what it raises is that connection error. *)
Theorem obj_exists_false_on_any_client_error (keyname : string) (w : World) :
  (fst (obj_exists keyname w) = Ok false ↔
     ∃ code, s3_head (remote w) get_bucket_name keyname = S3ClientError code) ∧
  (fst (obj_exists keyname w) = Ok true ↔
     s3_head (remote w) get_bucket_name keyname = S3Ok tt) ∧
  ((∃ e, fst (obj_exists keyname w) = Raise e) ↔
     s3_head (remote w) get_bucket_name keyname = S3NoConnection) ∧
  (∀ e, fst (obj_exists keyname w) = Raise e → e = EndpointConnectionError).
Proof.
  rewrite obj_exists_run; simpl.
  destruct (s3_head (remote w) get_bucket_name keyname) as [[]|code|];
    repeat split; try congruence; eauto.
  all: try (intros [? ?]; congruence).
Qed.

(** With the mirror enabled and the file on disk, [download_docver]
    skips the existence check and goes on to the download. *)
Lemma download_docver_local (docver_id : UUID) (file_name : string) (w : World) :
  is_enabled = true →
  path_exists (fs w) (abs_docver_path docver_id file_name) = true →
  download_docver docver_id file_name w =
  (mkdir_parents (parent (abs_docver_path docver_id file_name)) ;;
   client_download_file get_bucket_name
     (path_str (Path_of get_prefix ++ docver_path docver_id file_name))
     (abs_docver_path docver_id file_name)) w.
Proof.
  intros Hen Hex. unfold download_docver. rewrite skip_enabled by exact Hen.
  unfold mbind, M_bind, get_world at 1. simpl. rewrite Hex. reflexivity.
Qed.

(** In that case the download request is sent, whatever the cache holds. *)
Lemma download_docver_local_calls (docver_id : UUID) (file_name : string) (w : World) :
  is_enabled = true →
  path_exists (fs w) (abs_docver_path docver_id file_name) = true →
  is_Some (mkdir_from [] (parent (abs_docver_path docver_id file_name)) (fs w)) →
  calls (snd (download_docver docver_id file_name w)) =
  calls w ++ [DownloadFile get_bucket_name
                (path_str (Path_of get_prefix ++ docver_path docver_id file_name))].
Proof.
  intros Hen Hex [f Hf]. rewrite download_docver_local by assumption.
  unfold mbind, M_bind, mkdir_parents. rewrite Hf.
  unfold client_download_file, write_file. simpl.
  repeat case_match; reflexivity.
Qed.

(** [download_docver], case by case. *)
Lemma download_docver_run (docver_id : UUID) (file_name : string) (w : World) :
  let doc_ver_path := abs_docver_path docver_id file_name in
  let keyname := path_str (Path_of get_prefix ++ docver_path docver_id file_name) in
  let fetch := mkdir_parents (parent doc_ver_path) ;;
               client_download_file get_bucket_name keyname doc_ver_path in
  download_docver docver_id file_name w =
  if is_enabled then
    if path_exists (fs w) doc_ver_path then fetch w
    else
      match s3_head (remote w) get_bucket_name keyname with
      | S3Ok _ => fetch (log_call (HeadObject get_bucket_name keyname) w)
      | S3ClientError _ =>
          (Raise (S3DocumentNotFound ("S3 key " +:+ keyname +:+ " not found")),
           log_call (HeadObject get_bucket_name keyname) w)
      | S3NoConnection =>
          (Raise EndpointConnectionError, log_call (HeadObject get_bucket_name keyname) w)
      end
  else (Ok tt, w).
Proof.
  intros doc_ver_path keyname fetch.
  unfold download_docver, skip_if_s3_disabled.
  destruct is_enabled; [|reflexivity].
  unfold mbind at 1. unfold M_bind at 1. unfold get_world at 1. cbv beta iota.
  fold doc_ver_path. destruct (path_exists (fs w) doc_ver_path); simpl negb; cbv iota.
  - reflexivity.
  - unfold mbind at 1. unfold M_bind at 1.
    unfold mbind at 1. unfold M_bind at 1.
    rewrite obj_exists_run. fold keyname.
    destruct (s3_head (remote w) get_bucket_name keyname); reflexivity.
Qed.

(** Creating directories and downloading touches the files and the
    log only, and never raises [S3DocumentNotFound]. *)
Lemma fetch_frame (dir file : Path) (bucket : option string) (key : string) (w : World) :
  same_but_fs_calls w
    (snd ((mkdir_parents dir ;; client_download_file bucket key file) w)) ∧
  ∀ msg, fst ((mkdir_parents dir ;; client_download_file bucket key file) w)
         ≠ Raise (S3DocumentNotFound msg).
Proof.
  unfold mbind, M_bind, mkdir_parents, client_download_file, write_file,
    same_but_fs_calls.
  repeat case_match; simplify_eq; simpl; split; try done.
Qed.

Lemma same_but_fs_calls_log (c : remote_call) (w w' : World) :
  same_but_fs_calls (log_call c w) w' → same_but_fs_calls w w'.
Proof. unfold same_but_fs_calls. simpl. tauto. Qed.

Lemma download_docver_frame (docver_id : UUID) (file_name : string) (w : World) :
  same_but_fs_calls w (snd (download_docver docver_id file_name w)).
Proof.
  rewrite download_docver_run. simpl.
  destruct is_enabled; [|unfold same_but_fs_calls; done].
  destruct (path_exists _ _); [apply fetch_frame|].
  destruct (s3_head _ _ _) as [[]|code|]; simpl.
  - eapply same_but_fs_calls_log, fetch_frame.
  - unfold same_but_fs_calls; done.
  - unfold same_but_fs_calls; done.
Qed.

(** [download_docver] raises [S3DocumentNotFound] in one case only. *)
Lemma download_docver_not_found (docver_id : UUID) (file_name : string) (w : World) :
  (∃ msg, fst (download_docver docver_id file_name w) = Raise (S3DocumentNotFound msg)) ↔
  is_enabled = true ∧
  path_exists (fs w) (abs_docver_path docver_id file_name) = false ∧
  ∃ code, s3_head (remote w) get_bucket_name
            (path_str (Path_of get_prefix ++ docver_path docver_id file_name))
          = S3ClientError code.
Proof.
  rewrite download_docver_run. simpl.
  destruct is_enabled; [|split; [intros [? ?]|intros [? _]]; discriminate].
  destruct (path_exists _ _).
  { split; [intros [msg Hm]|intros (_ & ? & _); discriminate].
    exfalso. eapply fetch_frame. exact Hm. }
  destruct (s3_head _ _ _) as [[]|code|]; simpl.
  - split; [intros [msg Hm]|intros (_ & _ & ? & ?); discriminate].
    exfalso. eapply fetch_frame. exact Hm.
  - split; eauto.
  - split; [intros [? ?]|intros (_ & _ & ? & ?)]; discriminate.
Qed.

(** Its result does not depend on the identifier generator. *)
Lemma download_docver_draws (docver_id : UUID) (file_name : string) (n : nat) (w : World) :
  fst (download_docver docver_id file_name (draws n w)) =
  fst (download_docver docver_id file_name w).
Proof.
  rewrite !download_docver_run. simpl.
  unfold mbind, M_bind, mkdir_parents, client_download_file, write_file. simpl.
  repeat case_match; simplify_eq; simpl in *; congruence.
Qed.

End MirrorFacts.


(** * Properties of the top-level task *)

Section TaskFacts.
Context {cfg : Settings} {cst : Const} {pl : Plib} {mt : Mimetypes}.

Lemma draws_0 (w : World) : draws 0 w = w.
Proof. destruct w. unfold draws. simpl. f_equal. lia. Qed.

Lemma draws_draw (n : nat) (w : World) : draws n (draw_uuid w) = draws (S n) w.
Proof. unfold draws, draw_uuid. simpl. f_equal. lia. Qed.

Lemma drawn_ids_S (n : nat) (w : World) :
  drawn_ids w (S n) = uuid_source w (uuid_drawn w) :: drawn_ids (draw_uuid w) n.
Proof.
  unfold drawn_ids. simpl. f_equal.
  - f_equal. lia.
  - rewrite <- seq_shift, map_map. apply map_ext. intros i. f_equal. lia.
Qed.


(** The page identifiers are [n] successive draws. *)
Lemma draw_many (pages : list Page) (w : World) :
  mapM (λ _ : Page, uuid4) pages w =
  (Ok (drawn_ids w (length pages)), draws (length pages) w).
Proof.
  revert w. induction pages as [|p pages IH]; intros w.
  - simpl. rewrite draws_0. reflexivity.
  - simpl. unfold mbind, M_bind. unfold uuid4 at 1. rewrite IH.
    rewrite draws_draw, drawn_ids_S. reflexivity.
Qed.

Lemma db_get_last_version_world (doc_id : UUID) (w : World) :
  snd (db_get_last_version doc_id w) = w.
Proof. unfold db_get_last_version. case_match; reflexivity. Qed.

(** One run of the body of [ocr_document_task], step by step. *)
Lemma ocr_document_task_run (document_id lang : string) (w : World) :
  ocr_document_task document_id lang w =
  match fst (db_get_last_version document_id w) with
  | Raise e => (Raise e, w)
  | Ok doc_ver =>
      let n := length (filter (λ p, pg_document_version_id p = dv_id doc_ver)
                              (db_pages (db w))) in
      let target_docver_uuid := uuid_source w (uuid_drawn w) in
      let target_page_uuids := drawn_ids (draw_uuid w) n in
      match download_docver (dv_id doc_ver) (dv_file_name doc_ver) (draws (S n) w) with
      | (Raise e, w2) => (Raise e, w2)
      | (Ok _, w2) =>
          if bool_decide (guess_type (abs_docver_path (dv_id doc_ver) (dv_file_name doc_ver))
                            ∉ [Some "application/pdf"; Some "application/image"])
          then (Raise (ValueError ("Unsupported format for document: " +:+
                  path_str (abs_docver_path (dv_id doc_ver) (dv_file_name doc_ver)))), w2)
          else (Ok tt, submit (ocr_workflow doc_ver document_id (lower lang)
                                 target_docver_uuid target_page_uuids) w2)
      end
  end.
Proof.
  unfold ocr_document_task. unfold mbind at 1. unfold M_bind at 1.
  pose proof (db_get_last_version_world document_id w) as Hw.
  destruct (db_get_last_version document_id w) as [[doc_ver|e] w0]; simpl in Hw; subst w0;
    [|reflexivity].
  simpl fst. cbv beta iota.
  unfold mbind at 1. unfold M_bind at 1. unfold db_get_pages at 1.
  unfold mbind at 1. unfold M_bind at 1. unfold uuid4 at 1.
  unfold mbind at 1. unfold M_bind at 1. rewrite draw_many, draws_draw.
  unfold mbind at 1. unfold M_bind at 1.
  destruct (download_docver _ _ _) as [[[]|e] w2]; [|reflexivity].
  case_bool_decide; reflexivity.
Qed.

Lemma db_get_last_version_raise (doc_id : UUID) (w : World) (e : exn) :
  fst (db_get_last_version doc_id w) = Raise e → e = NoResultFound.
Proof. unfold db_get_last_version. case_match; simpl; congruence. Qed.

(** The body raises [S3DocumentNotFound] exactly when the source is
    reported missing. *)
Lemma ocr_document_task_not_found (document_id lang : string) (w : World) :
  (∃ msg, fst (ocr_document_task document_id lang w) = Raise (S3DocumentNotFound msg)) ↔
  source_reported_missing document_id w.
Proof.
  rewrite ocr_document_task_run. unfold source_reported_missing.
  destruct (fst (db_get_last_version document_id w)) as [doc_ver|e] eqn:Hdb.
  - cbv zeta.
    pose proof (download_docver_not_found (dv_id doc_ver) (dv_file_name doc_ver)
      (draws (S (length (filter (λ p, pg_document_version_id p = dv_id doc_ver)
                                (db_pages (db w))))) w)) as Hnf.
    simpl fs in Hnf. simpl remote in Hnf.
    destruct (download_docver _ _ _) as [[[]|e] w2]; simpl fst in Hnf.
    + split.
      * intros [msg Hm]. case_bool_decide; discriminate.
      * intros (Hen & dv & Hdv & Hex & Hhead). simplify_eq.
        destruct Hnf as [_ Hnf]. destruct Hnf as [? ?]; [auto|discriminate].
    + simpl. split.
      * intros [msg Hm]. simplify_eq.
        destruct Hnf as [Hnf _]. destruct Hnf as (Hen & Hex & Hhead); eauto.
      * intros (Hen & dv & Hdv & Hex & Hhead). simplify_eq. apply Hnf. auto.
  - apply db_get_last_version_raise in Hdb as ->. simpl. split.
    + intros [? ?]. discriminate.
    + intros (_ & ? & ? & _). discriminate.
Qed.

Lemma run_task_retry (opts : task_options) (r : nat) (body : M unit) (w w' : World)
    (d : Z) (e : exn) :
  run_task opts r body w = (Retry d e, w') →
  d = countdown opts ∧ autoretry_for opts e = true ∧ (r < max_retries opts)%nat ∧
  body w = (Raise e, w').
Proof.
  unfold run_task. destruct (body w) as [[[]|e'] w1]; [discriminate|].
  destruct (autoretry_for opts e') eqn:Ha; [|discriminate].
  case_bool_decide; [discriminate|].
  intros ?; simplify_eq. repeat split; [done|lia].
Qed.

(** The deliveries of one submission are retries, at most [max_retries]
    of them, each with the configured delay, followed by one final
    outcome. *)
Lemma deliver_shape (opts : task_options) (env : nat → World → World) (body : M unit)
    (fuel r : nat) (w : World) :
  (max_retries opts ≤ r + fuel)%nat →
  ∃ init last,
    fst (deliver (S fuel) opts env r body w) = init ++ [last] ∧
    Forall (λ o, ∃ e, o = Retry (countdown opts) e) init ∧
    (length init ≤ max_retries opts - r)%nat ∧
    (last = Succeeded ∨ ∃ e, last = Failure e).
Proof.
  revert r w. induction fuel as [|fuel IH]; intros r w Hfuel.
  - simpl. destruct (run_task opts r body w) as [o w1] eqn:Hrun.
    destruct o as [|d e|e].
    + exists [], Succeeded. simpl. repeat split; [constructor|lia|auto].
    + apply run_task_retry in Hrun. lia.
    + exists [], (Failure e). simpl. repeat split; [constructor|lia|eauto].
  - change (deliver (S (S fuel)) opts env r body w)
      with (match run_task opts r body w with
            | (Retry d e, w') =>
                let '(rest, w'') :=
                  deliver (S fuel) opts env (S r) body (env r w') in
                (Retry d e :: rest, w'')
            | (o, w') => ([o], w')
            end).
    destruct (run_task opts r body w) as [o w1] eqn:Hrun.
    destruct o as [|d e|e].
    + exists [], Succeeded. simpl. repeat split; [constructor|lia|auto].
    + apply run_task_retry in Hrun as (-> & _ & Hlt & _).
      destruct (IH (S r) (env r w1)) as (init & last & Heq & Hall & Hlen & Hlast); [lia|].
      destruct (deliver (S fuel) opts env (S r) body (env r w1)) as [rest w2].
      simpl in Heq. subst rest.
      exists (Retry (countdown opts) e :: init), last. simpl.
      repeat split; [constructor; eauto|lia|exact Hlast].
    + exists [], (Failure e). simpl. repeat split; [constructor|lia|eauto].
Qed.

(** C5, as the code has it: a delivery of the top-level task ends in a
    retry exactly when the source is reported missing (mirror enabled,
    file not on disk, HEAD request answered by an error response) and
    fewer than 6 retries have been made; the retry is scheduled 10
    seconds later; with 6 retries made, the same condition is a
    failure with [S3DocumentNotFound]; a submission is delivered at
    most 7 times, the last delivery ending in success or failure. *)
Theorem retry_only_when_source_reported_missing (document_id lang : string)
    (w : World) (request_retries : nat) (env : nat → World → World) :
  let o := fst (run_task ocr_document_task_options request_retries
                  (ocr_document_task document_id lang) w) in
  ((∃ d e, o = Retry d e) ↔
     source_reported_missing document_id w ∧ (request_retries < 6)%nat) ∧
  (∀ d e, o = Retry d e → d = 10%Z) ∧
  (source_reported_missing document_id w ∧ (6 ≤ request_retries)%nat →
     ∃ msg, o = Failure (S3DocumentNotFound msg)) ∧
  (∃ init last,
     fst (submit_ocr_document env document_id lang w) = init ++ [last] ∧
     Forall (λ o, ∃ e, o = Retry 10 e) init ∧
     (length init ≤ 6)%nat ∧
     (last = Succeeded ∨ ∃ e, last = Failure e)).
Proof.
  intros o. split; [split|split; [|split]].
  - intros (d & e & Ho). subst o.
    destruct (run_task _ _ _ _) as [o w1] eqn:Hrun. simpl in Ho. subst o.
    apply run_task_retry in Hrun as (_ & Hauto & Hlt & Hbody).
    destruct e; try discriminate. split; [|exact Hlt].
    apply (ocr_document_task_not_found document_id lang w).
    exists msg. rewrite Hbody. reflexivity.
  - intros [Hmiss Hlt]. apply (ocr_document_task_not_found document_id lang w) in Hmiss as [msg Hm].
    subst o. unfold run_task.
    destruct (ocr_document_task document_id lang w) as [[[]|e] w1];
      simpl in Hm; [discriminate|]. simplify_eq. simpl.
    case_bool_decide; [lia|]. simpl. eauto.
  - intros d e Ho. subst o.
    destruct (run_task _ _ _ _) as [o w1] eqn:Hrun. simpl in Ho. subst o.
    apply run_task_retry in Hrun as (-> & _). reflexivity.
  - intros [Hmiss Hge]. apply (ocr_document_task_not_found document_id lang w) in Hmiss as [msg Hm].
    subst o. unfold run_task.
    destruct (ocr_document_task document_id lang w) as [[[]|e] w1];
      simpl in Hm; [discriminate|]. simplify_eq. simpl.
    case_bool_decide; [|lia]. simpl. eauto.
  - unfold submit_ocr_document.
    destruct (deliver_shape ocr_document_task_options env
                (ocr_document_task document_id lang) 6 0 w)
      as (init & last & Heq & Hall & Hlen & Hlast); [simpl; lia|].
    exists init, last. repeat split; try assumption; simpl in Hlen; lia.
Qed.

Lemma run_task_world (opts : task_options) (r : nat) (body : M unit) (w : World) :
  snd (run_task opts r body w) = snd (body w).
Proof. unfold run_task. repeat case_match; reflexivity. Qed.

Lemma run_task_succeeded (opts : task_options) (r : nat) (body : M unit) (w : World) :
  fst (run_task opts r body w) = Succeeded ↔ fst (body w) = Ok tt.
Proof.
  unfold run_task. destruct (body w) as [[[]|e] w1]; simpl; [done|].
  repeat case_match; simpl; split; discriminate.
Qed.

(** Every task of the workflow carries the identifiers it was built
    with. *)
Lemma ocr_workflow_targets (doc_ver : DocVer) (document_id lang : string)
    (target_docver_uuid : UUID) (target_page_uuids : list UUID)
    (c : canvas) (s : signature) (t : UUID) (ps : list UUID) :
  c ∈ ocr_workflow doc_ver document_id lang target_docver_uuid target_page_uuids →
  s ∈ members c →
  sig_targets s = Some (t, ps) →
  t = target_docver_uuid ∧ ps ⊆ target_page_uuids.
Proof.
  unfold ocr_workflow. intros Hc Hs Ht.
  repeat (apply elem_of_cons in Hc as [-> | Hc]); [| | | | |by apply elem_of_nil in Hc].
  - simpl in Hs. apply list_elem_of_lookup in Hs as [i Hi].
    rewrite list_lookup_imap in Hi.
    destruct (target_page_uuids !! i) as [u|] eqn:Hu; simpl in Hi; [|discriminate].
    simplify_eq. simpl in Ht. simplify_eq. split; [done|].
    intros x Hx. apply list_elem_of_singleton in Hx as ->.
    eapply list_elem_of_lookup_2. exact Hu.
  - simpl in Hs. apply list_elem_of_singleton in Hs as ->. simpl in Ht. by simplify_eq.
  - simpl in Hs. apply list_elem_of_singleton in Hs as ->. simpl in Ht. by simplify_eq.
  - simpl in Hs. apply list_elem_of_singleton in Hs as ->. discriminate.
  - simpl in Hs. apply list_elem_of_singleton in Hs as ->. discriminate.
Qed.

(** What a run of the body leaves behind, by its result. *)
Lemma ocr_document_task_effects (document_id lang : string) (w : World) :
  let r := ocr_document_task document_id lang w in
  match fst (db_get_last_version document_id w) with
  | Raise e => r = (Raise e, w)
  | Ok doc_ver =>
      uuid_drawn (snd r) = (uuid_drawn w + S (page_count doc_ver w))%nat ∧
      match fst r with
      | Ok _ =>
          broker (snd r) = broker w ++
            [ocr_workflow doc_ver document_id (lower lang)
               (uuid_source w (uuid_drawn w))
               (drawn_ids (draw_uuid w) (page_count doc_ver w))] ∧
          fst (download_docver (dv_id doc_ver) (dv_file_name doc_ver) w) = Ok tt ∧
          guess_type (abs_docver_path (dv_id doc_ver) (dv_file_name doc_ver))
            ∈ [Some "application/pdf"; Some "application/image"]
      | Raise e =>
          broker (snd r) = broker w ∧
          (fst (download_docver (dv_id doc_ver) (dv_file_name doc_ver) w) = Ok tt →
           e = ValueError ("Unsupported format for document: " +:+
                 path_str (abs_docver_path (dv_id doc_ver) (dv_file_name doc_ver))))
      end
  end.
Proof.
  intros r. subst r. rewrite ocr_document_task_run.
  destruct (fst (db_get_last_version document_id w)) as [doc_ver|e]; [|reflexivity].
  cbv zeta. fold (page_count doc_ver w).
  pose proof (download_docver_frame (dv_id doc_ver) (dv_file_name doc_ver)
                (draws (S (page_count doc_ver w)) w)) as Hframe.
  pose proof (download_docver_draws (dv_id doc_ver) (dv_file_name doc_ver)
                (S (page_count doc_ver w)) w) as Hdraws.
  destruct (download_docver _ _ (draws _ w)) as [[[]|e] w2].
  - simpl in Hframe, Hdraws. destruct Hframe as (_ & _ & _ & Hd & _ & Hb & _).
    case_bool_decide as Hty; simpl.
    + split; [by rewrite Hd|]. split; [by rewrite Hb|]. done.
    + split; [by rewrite Hd|]. split; [by rewrite Hb|]. split; [done|].
      destruct (decide (guess_type (abs_docver_path (dv_id doc_ver) (dv_file_name doc_ver))
                          ∈ [Some "application/pdf"; Some "application/image"]));
        [done|contradiction].
  - simpl in Hframe, Hdraws. destruct Hframe as (_ & _ & _ & Hd & _ & Hb & _). simpl.
    split; [by rewrite Hd|]. split; [by rewrite Hb|]. rewrite <- Hdraws. discriminate.
Qed.

(** C1, as the code has it: the target identifiers are drawn by the
    body of the top-level task, at every delivery.  A delivery that
    succeeds has submitted one workflow, built from the identifiers
    drawn in that very delivery (the next value of the generator for
    the version, the following ones for the pages, in page order), and
    every task of that workflow carries them; a delivery that does not
    succeed has submitted nothing; a delivery that ends in a retry has
    consumed its draws, so that the next delivery draws further values
    of the generator. *)
Theorem targets_drawn_at_each_delivery (document_id lang : string) (w : World)
    (request_retries : nat) :
  let r := run_task ocr_document_task_options request_retries
             (ocr_document_task document_id lang) w in
  (fst r = Succeeded →
     ∃ doc_ver wf,
       fst (db_get_last_version document_id w) = Ok doc_ver ∧
       wf = ocr_workflow doc_ver document_id (lower lang)
              (uuid_source w (uuid_drawn w))
              (drawn_ids (draw_uuid w) (page_count doc_ver w)) ∧
       broker (snd r) = broker w ++ [wf] ∧
       ∀ c s t ps, c ∈ wf → s ∈ members c → sig_targets s = Some (t, ps) →
         t = uuid_source w (uuid_drawn w) ∧
         ps ⊆ drawn_ids (draw_uuid w) (page_count doc_ver w)) ∧
  (fst r ≠ Succeeded → broker (snd r) = broker w) ∧
  (∀ d e, fst r = Retry d e →
     ∃ doc_ver,
       fst (db_get_last_version document_id w) = Ok doc_ver ∧
       uuid_drawn (snd r) = (uuid_drawn w + S (page_count doc_ver w))%nat).
Proof.
  intros r. subst r.
  pose proof (ocr_document_task_effects document_id lang w) as Heff. cbv zeta in Heff.
  rewrite run_task_world.
  split; [|split].
  - intros Hs. apply run_task_succeeded in Hs.
    destruct (fst (db_get_last_version document_id w)) as [doc_ver|e].
    + rewrite Hs in Heff. destruct Heff as (_ & Hb & _).
      eexists doc_ver, _. split; [reflexivity|]. split; [reflexivity|].
      split; [exact Hb|]. intros c s t ps Hc Hm Ht.
      eapply ocr_workflow_targets; eassumption.
    + rewrite Heff in Hs. discriminate.
  - intros Hs.
    destruct (fst (db_get_last_version document_id w)) as [doc_ver|e].
    + destruct (fst (ocr_document_task document_id lang w)) as [[]|e] eqn:Hr.
      * exfalso. apply Hs. by apply run_task_succeeded.
      * by destruct Heff as (_ & Hb & _).
    + by rewrite Heff.
  - intros d e Hr.
    destruct (run_task _ _ _ _) as [o w1] eqn:Hrun. simpl in Hr. subst o.
    apply run_task_retry in Hrun as (_ & Hauto & _ & Hbody).
    destruct (fst (db_get_last_version document_id w)) as [doc_ver|e'] eqn:Hdb.
    + exists doc_ver. split; [done|]. by destruct Heff as [Hd _].
    + apply db_get_last_version_raise in Hdb as ->.
      rewrite Heff in Hbody. simplify_eq.
Qed.


End TaskFacts.

(** * Properties of the batched fetch *)

Section FetchFacts.
Context {cfg : Settings} {cst : Const} {pl : Plib}.

(** [mkdir_from] only adds directories, where there was nothing. *)
Lemma mkdir_from_keeps (todo made : Path) (f f' : gmap Path node) (p : Path) (n : node) :
  mkdir_from made todo f = Some f' → f !! p = Some n → f' !! p = Some n.
Proof.
  revert made f. induction todo as [|c todo IH]; intros made f Hmk Hp; simpl in Hmk.
  - by simplify_eq.
  - destruct (f !! (made ++ [c])) as [[b|]|] eqn:Hd; [discriminate| |].
    + eapply IH; eassumption.
    + eapply IH; [eassumption|].
      rewrite lookup_insert_ne; [done|]. intros <-. congruence.
Qed.

Lemma mkdir_from_dir (todo made : Path) (f f' : gmap Path node) :
  mkdir_from made todo f = Some f' → todo ≠ [] → f' !! (made ++ todo) = Some Dir.
Proof.
  revert made f. induction todo as [|c todo IH]; intros made f Hmk Hne; [done|].
  simpl in Hmk. replace (made ++ c :: todo) with ((made ++ [c]) ++ todo)
    by (rewrite <- app_assoc; reflexivity).
  destruct (f !! (made ++ [c])) as [[b|]|] eqn:Hd; [discriminate| |].
  - destruct todo as [|c' todo].
    + simpl in Hmk. simplify_eq. by rewrite app_nil_r.
    + eapply IH; [eassumption|done].
  - destruct todo as [|c' todo].
    + simpl in Hmk. simplify_eq. rewrite app_nil_r. apply lookup_insert_eq.
    + eapply IH; [eassumption|done].
Qed.

Lemma mkdir_is_dir (p : Path) (f f' : gmap Path node) :
  mkdir_from [] p f = Some f' → path_is_dir f' p = true.
Proof.
  intros Hmk. destruct p as [|c p]; [reflexivity|].
  apply mkdir_from_dir in Hmk; [|done]. simpl in Hmk.
  unfold path_is_dir. by rewrite Hmk.
Qed.

Lemma parent_page_pdf_file (page_id : UUID) :
  parent (page_pdf_file page_id) = abs_page_path page_id.
Proof. unfold parent, page_pdf_file. apply removelast_last. Qed.

(** [get_pdf_page] hands back the body of whatever response the GET
    got. *)
Lemma get_pdf_page_run (page_id : UUID) (w : World) :
  get_pdf_page page_id w =
  (match s3_http_get (remote w) (page_pdf_url page_id) with
   | HttpResponse resp => Ok (body resp)
   | HttpNoConnection => Raise ConnectError
   end, log_call (HttpGet (page_pdf_url page_id)) w).
Proof.
  unfold get_pdf_page, client_get, mbind, M_bind. fold (page_pdf_url page_id).
  destruct (s3_http_get _ _); reflexivity.
Qed.

(** C10: the coroutine that fetches one page of a batch looks at no
    status.  Whatever response the GET of the signed URL gets, of any
    status code, its body becomes the content of the PDF file of the
    page, and the coroutine returns normally; this needs only that the
    page directory can be created and that the file path is not a
    directory. *)
Theorem response_body_written_whatever_status (page_id : UUID) (w : World)
    (resp : http_response) (f : gmap Path node) :
  s3_http_get (remote w) (page_pdf_url page_id) = HttpResponse resp →
  mkdir_from [] (abs_page_path page_id) (fs w) = Some f →
  f !! page_pdf_file page_id ≠ Some Dir →
  get_pdf_page page_id w =
    (Ok (body resp), log_call (HttpGet (page_pdf_url page_id)) w) ∧
  download_one_pdf_page page_id w =
    (Ok tt, set_fs (<[page_pdf_file page_id := File (body resp)]> f)
              (log_call (HttpGet (page_pdf_url page_id)) w)) ∧
  fs (snd (download_one_pdf_page page_id w)) !! page_pdf_file page_id
    = Some (File (body resp)).
Proof.
  intros Hget Hmk Hnd.
  assert (download_one_pdf_page page_id w =
    (Ok tt, set_fs (<[page_pdf_file page_id := File (body resp)]> f)
              (log_call (HttpGet (page_pdf_url page_id)) w))) as Hrun.
  { unfold download_one_pdf_page. unfold mbind at 1. unfold M_bind at 1.
    rewrite get_pdf_page_run, Hget. fold (page_pdf_file page_id).
    rewrite parent_page_pdf_file.
    unfold mbind, M_bind, mkdir_parents. simpl fs. rewrite Hmk.
    unfold write_file. simpl fs. rewrite parent_page_pdf_file.
    rewrite (mkdir_is_dir _ _ _ Hmk).
    destruct (f !! page_pdf_file page_id) as [[b|]|] eqn:Hf; try reflexivity.
    contradiction. }
  split; [by rewrite get_pdf_page_run, Hget|]. split; [exact Hrun|].
  rewrite Hrun. simpl. apply lookup_insert_eq.
Qed.

Lemma download_one_pdf_page_run (page_id : UUID) (w : World) :
  download_one_pdf_page page_id w =
  match s3_http_get (remote w) (page_pdf_url page_id) with
  | HttpResponse resp =>
      (mkdir_parents (abs_page_path page_id) ;;
       write_file (page_pdf_file page_id) (body resp))
        (log_call (HttpGet (page_pdf_url page_id)) w)
  | HttpNoConnection =>
      (Raise ConnectError, log_call (HttpGet (page_pdf_url page_id)) w)
  end.
Proof.
  unfold download_one_pdf_page. unfold mbind at 1. unfold M_bind at 1.
  rewrite get_pdf_page_run. fold (page_pdf_file page_id).
  rewrite parent_page_pdf_file.
  destruct (s3_http_get _ _); reflexivity.
Qed.

(** One coroutine sends one request, and leaves the store as it is. *)
Lemma download_one_pdf_page_frame (page_id : UUID) (w : World) :
  remote (snd (download_one_pdf_page page_id w)) = remote w ∧
  calls (snd (download_one_pdf_page page_id w)) =
    calls w ++ [HttpGet (page_pdf_url page_id)].
Proof.
  rewrite download_one_pdf_page_run.
  destruct (s3_http_get _ _); [|done].
  unfold mbind, M_bind, mkdir_parents, write_file.
  repeat case_match; simplify_eq; done.
Qed.


Lemma coro_at_lookup (page_ids : list UUID) (i : nat) :
  coro_at page_ids i =
  match page_ids !! i with
  | Some page_id => download_one_pdf_page page_id
  | None => raise (OSError "gather")
  end.
Proof.
  unfold coro_at. change (map download_one_pdf_page page_ids)
    with (download_one_pdf_page <$> page_ids).
  rewrite list_lookup_fmap. by destruct (page_ids !! i).
Qed.

(** [mapM] in the monad: the actions run from left to right, up to the
    first that raises. *)
Lemma mapM_cons_run {A B} (f : A → M B) (x : A) (l : list A) (w : World) :
  mapM f (x :: l) w =
  match f x w with
  | (Ok y, w1) =>
      match mapM f l w1 with
      | (Ok k, w2) => (Ok (y :: k), w2)
      | (Raise e, w2) => (Raise e, w2)
      end
  | (Raise e, w1) => (Raise e, w1)
  end.
Proof.
  simpl. unfold mbind, M_bind.
  destruct (f x w) as [[y|e] w1]; [|reflexivity].
  destruct (mapM f l w1) as [[k|e] w2]; reflexivity.
Qed.



Lemma download_pdf_pages_run (target_page_ids : list UUID) (w : World) :
  download_pdf_pages target_page_ids w =
  if is_enabled then
    let to_download := queued_for_download (fs w) target_page_ids in
    match mapM (coro_at to_download) (loop_order w (length to_download)) w with
    | (Ok _, w') => (Ok tt, w')
    | (Raise e, w') => (Raise e, w')
    end
  else (Ok tt, w).
Proof.
  unfold download_pdf_pages, skip_if_s3_disabled. destruct is_enabled; [|done].
  unfold mbind at 1. unfold M_bind at 1. unfold get_world at 1. cbv beta iota zeta.
  unfold download_many_pdf_pages, supervisor, gather.
  unfold mbind at 1 2. unfold M_bind at 1 2. rewrite length_map.
  change (λ i, default (raise (OSError "gather"))
                 (map download_one_pdf_page (queued_for_download (fs w) target_page_ids) !! i))
    with (coro_at (queued_for_download (fs w) target_page_ids)).
  destruct (mapM (M := M) _ _ w) as [[k|e] w1]; reflexivity.
Qed.


End FetchFacts.

(** * Properties of the chain execution *)

Section ChainFacts.
Variable wf : list canvas.






End ChainFacts.

(** * Properties of the stitch step *)

Section StitchFacts.
Context {cfg : Settings} {cst : Const} {pl : Plib} {mt : Mimetypes} {pdf : PdfLib}.





End StitchFacts.

(** * Further properties of the storage mirror *)

Section MirrorMore.
Context {cfg : Settings} {cst : Const} {pl : Plib}.

(** [mkdir_from] changes nothing at paths longer than the one it makes. *)
Lemma mkdir_from_longer (todo made : Path) (f f' : gmap Path node) (q : Path) :
  mkdir_from made todo f = Some f' →
  (length (made ++ todo) < length q)%nat →
  f' !! q = f !! q.
Proof.
  revert made f. induction todo as [|c todo IH]; intros made f Hmk Hlen; simpl in Hmk.
  - by simplify_eq.
  - assert (length ((made ++ [c]) ++ todo) < length q)%nat as Hlen'.
    { rewrite <- app_assoc. exact Hlen. }
    destruct (f !! (made ++ [c])) as [[b|]|] eqn:Hd; [discriminate| |].
    + by eapply IH.
    + rewrite (IH _ _ Hmk Hlen'). apply lookup_insert_ne. intros Heq.
      rewrite <- Heq in Hlen'. rewrite length_app in Hlen'. lia.
Qed.

(** Making the parent directory of an absent path leaves it absent. *)
Lemma mkdir_parent_absent (p : Path) (f f' : gmap Path node) :
  mkdir_from [] (parent p) f = Some f' → f !! p = None → f' !! p = None.
Proof.
  intros Hmk Hp. destruct (decide (p = [])) as [->|Hne].
  - simpl in Hmk. by simplify_eq.
  - rewrite (mkdir_from_longer _ _ _ _ p Hmk); [done|].
    simpl. unfold parent.
    destruct (exists_last Hne) as (p' & x & ->).
    rewrite removelast_last, length_app. simpl. lia.
Qed.

Lemma path_exists_false (f : gmap Path node) (p : Path) :
  path_exists f p = false ↔ f !! p = None.
Proof.
  unfold path_exists. rewrite bool_decide_eq_false, <- eq_None_not_Some. done.
Qed.

Lemma path_exists_true (f : gmap Path node) (p : Path) :
  path_exists f p = true ↔ is_Some (f !! p).
Proof. unfold path_exists. apply bool_decide_eq_true. Qed.

(** [upload_file], case by case. *)
Lemma upload_file_run (rel_file_path : Path) (w : World) :
  upload_file rel_file_path w =
  if is_enabled then
    match fs w !! rel2abs rel_file_path with
    | Some (File b) =>
        match s3_put (remote w) get_bucket_name (mirror_key rel_file_path) b with
        | S3Ok r =>
            (Ok tt, set_remote r
                      (log_call (UploadFile get_bucket_name (mirror_key rel_file_path)) w))
        | S3ClientError c =>
            (Raise (ClientError c),
             log_call (UploadFile get_bucket_name (mirror_key rel_file_path)) w)
        | S3NoConnection =>
            (Raise EndpointConnectionError,
             log_call (UploadFile get_bucket_name (mirror_key rel_file_path)) w)
        end
    | _ => (Ok tt, w)
    end
  else (Ok tt, w).
Proof.
  unfold upload_file, skip_if_s3_disabled. destruct is_enabled; [|reflexivity].
  unfold mbind, M_bind, get_world. cbv beta iota. fold (mirror_key rel_file_path).
  destruct (fs w !! rel2abs rel_file_path) as [[b|]|] eqn:Hf.
  - rewrite (proj2 (path_exists_true _ _)) by (rewrite Hf; eauto).
    unfold path_is_file, client_upload_file. rewrite Hf. simpl. rewrite Hf.
    reflexivity.
  - rewrite (proj2 (path_exists_true _ _)) by (rewrite Hf; eauto).
    unfold path_is_file. rewrite Hf. reflexivity.
  - rewrite (proj2 (path_exists_false _ _)) by exact Hf. reflexivity.
Qed.

(** X1: publishing something that is not a regular file (a missing
    path, or a directory) is silently skipped: no request is sent and
    nothing changes, whether the mirror is enabled or not. *)
Theorem upload_file_skips_what_is_not_a_file (rel_file_path : Path) (w : World) :
  path_is_file (fs w) (rel2abs rel_file_path) = false →
  upload_file rel_file_path w = (Ok tt, w).
Proof.
  intros Hnf. rewrite upload_file_run. destruct is_enabled; [|reflexivity].
  unfold path_is_file in Hnf.
  destruct (fs w !! rel2abs rel_file_path) as [[b|]|]; [discriminate|reflexivity..].
Qed.

(** X2: with the mirror enabled and the store accepting the requests,
    [upload_file] of a regular file sends exactly one upload request,
    leaves the local files alone, and puts the content of the file under
    the mirrored key; [obj_exists] on that key then answers [True]. *)
Theorem upload_file_then_obj_exists (rel_file_path : Path) (w : World) (b : Bytes) :
  is_enabled = true →
  fs w !! rel2abs rel_file_path = Some (File b) →
  fault (remote w) (UploadFile get_bucket_name (mirror_key rel_file_path)) = None →
  fault (remote w) (HeadObject get_bucket_name (mirror_key rel_file_path)) = None →
  let r := upload_file rel_file_path w in
  fst r = Ok tt ∧
  fs (snd r) = fs w ∧
  calls (snd r) = calls w ++ [UploadFile get_bucket_name (mirror_key rel_file_path)] ∧
  objects (remote (snd r)) !! (get_bucket_name, mirror_key rel_file_path) = Some b ∧
  fst (obj_exists (mirror_key rel_file_path) (snd r)) = Ok true.
Proof.
  intros Hen Hf Hup Hhead r. subst r.
  rewrite upload_file_run, Hen, Hf. unfold s3_put. rewrite Hup. simpl.
  repeat split.
  - apply lookup_insert_eq.
  - rewrite obj_exists_run. simpl. unfold s3_head. simpl. rewrite Hhead.
    by rewrite lookup_insert_eq.
Qed.

(** What fetching into the cache does when the object is there. *)
Lemma fetch_present (dir file : Path) (bucket : option string) (key : string)
    (w : World) (b : Bytes) (f : gmap Path node) :
  objects (remote w) !! (bucket, key) = Some b →
  fault (remote w) (DownloadFile bucket key) = None →
  mkdir_from [] dir (fs w) = Some f →
  dir = parent file →
  f !! file ≠ Some Dir →
  (mkdir_parents dir ;; client_download_file bucket key file) w =
  (Ok tt, set_fs (<[file := File b]> f) (log_call (DownloadFile bucket key) w)).
Proof.
  intros Hobj Hflt Hmk -> Hnd.
  unfold mbind, M_bind, mkdir_parents. rewrite Hmk.
  unfold client_download_file, s3_get. simpl. rewrite Hflt, Hobj.
  unfold write_file. simpl. rewrite (mkdir_is_dir _ _ _ Hmk).
  destruct (f !! file) as [[b'|]|]; try reflexivity. contradiction.
Qed.

Lemma download_docver_cold_run (docver_id : UUID) (file_name : string)
    (w : World) (b : Bytes) (f : gmap Path node) :
  let p := abs_docver_path docver_id file_name in
  let key := mirror_key (docver_path docver_id file_name) in
  is_enabled = true →
  path_exists (fs w) p = false →
  objects (remote w) !! (get_bucket_name, key) = Some b →
  fault (remote w) (HeadObject get_bucket_name key) = None →
  fault (remote w) (DownloadFile get_bucket_name key) = None →
  mkdir_from [] (parent p) (fs w) = Some f →
  download_docver docver_id file_name w =
  (Ok tt,
   set_fs (<[p := File b]> f)
     (log_call (DownloadFile get_bucket_name key)
        (log_call (HeadObject get_bucket_name key) w))).
Proof.
  intros p key Hen Hex Hobj Hh Hd Hmk.
  rewrite download_docver_run. cbv zeta. fold p. rewrite Hen, Hex.
  fold (mirror_key (docver_path docver_id file_name)). fold key.
  unfold s3_head. rewrite Hh, Hobj.
  apply fetch_present; try done.
  apply path_exists_false in Hex.
  rewrite (mkdir_parent_absent _ _ _ Hmk Hex). discriminate.
Qed.

(** X3: with the mirror enabled, a file that is not in the local cache
    and is in the bucket is fetched: [download_docver] returns normally
    after one HEAD and one download request, and the file then holds
    the bytes of the object. *)
Theorem download_docver_fetches_missing_file (docver_id : UUID) (file_name : string)
    (w : World) (b : Bytes) (f : gmap Path node) :
  let p := abs_docver_path docver_id file_name in
  let key := mirror_key (docver_path docver_id file_name) in
  is_enabled = true →
  path_exists (fs w) p = false →
  objects (remote w) !! (get_bucket_name, key) = Some b →
  fault (remote w) (HeadObject get_bucket_name key) = None →
  fault (remote w) (DownloadFile get_bucket_name key) = None →
  mkdir_from [] (parent p) (fs w) = Some f →
  fst (download_docver docver_id file_name w) = Ok tt ∧
  calls (snd (download_docver docver_id file_name w)) =
    calls w ++ [HeadObject get_bucket_name key; DownloadFile get_bucket_name key] ∧
  fs (snd (download_docver docver_id file_name w)) !! p = Some (File b).
Proof.
  intros p key Hen Hex Hobj Hh Hd Hmk.
  rewrite (download_docver_cold_run docver_id file_name w b f Hen Hex Hobj Hh Hd Hmk).
  simpl. split; [done|]. split.
  - by rewrite <- app_assoc.
  - apply lookup_insert_eq.
Qed.

(** X4: what one worker publishes, another can fetch.  When
    [upload_file] has published the file of a document version (its
    relative path naming the same file as its absolute path), a
    [download_docver] run against that bucket with an empty cache
    returns normally and restores the very bytes that were published. *)
Theorem publish_then_fetch_round_trip (docver_id : UUID) (file_name : string)
    (w w2 : World) (b : Bytes) (f : gmap Path node) :
  let rel := docver_path docver_id file_name in
  let p := abs_docver_path docver_id file_name in
  is_enabled = true →
  rel2abs rel = p →
  fs w !! p = Some (File b) →
  (∀ c, fault (remote w) c = None) →
  remote w2 = remote (snd (upload_file rel w)) →
  path_exists (fs w2) p = false →
  mkdir_from [] (parent p) (fs w2) = Some f →
  fst (upload_file rel w) = Ok tt ∧
  fst (download_docver docver_id file_name w2) = Ok tt ∧
  fs (snd (download_docver docver_id file_name w2)) !! p = Some (File b).
Proof.
  intros rel p Hen Hrel Hf Hflt Hrem Hex Hmk.
  rewrite upload_file_run, Hen in Hrem |- *. rewrite Hrel, Hf in Hrem |- *.
  unfold s3_put in Hrem |- *. rewrite Hflt in Hrem |- *. simpl in Hrem.
  split; [reflexivity|].
  assert (objects (remote w2) !! (get_bucket_name, mirror_key rel) = Some b) as Hobj.
  { rewrite Hrem. simpl. apply lookup_insert_eq. }
  assert (∀ c, fault (remote w2) c = None) as Hflt2.
  { intros c. rewrite Hrem. simpl. apply Hflt. }
  rewrite (download_docver_cold_run docver_id file_name w2 b f Hen Hex Hobj
             (Hflt2 _) (Hflt2 _) Hmk).
  simpl. split; [done|]. apply lookup_insert_eq.
Qed.

(** X5: with the mirror enabled, a file that is in the local cache but
    not in the bucket makes [download_docver] raise the [ClientError]
    (status 404) of the download request, which is sent although the
    file is there; the local file is left as it was. *)
Theorem download_docver_local_only_raises (docver_id : UUID) (file_name : string)
    (w : World) (n : node) (f : gmap Path node) :
  let p := abs_docver_path docver_id file_name in
  let key := mirror_key (docver_path docver_id file_name) in
  is_enabled = true →
  fs w !! p = Some n →
  objects (remote w) !! (get_bucket_name, key) = None →
  fault (remote w) (DownloadFile get_bucket_name key) = None →
  mkdir_from [] (parent p) (fs w) = Some f →
  fst (download_docver docver_id file_name w) = Raise (ClientError 404) ∧
  calls (snd (download_docver docver_id file_name w)) =
    calls w ++ [DownloadFile get_bucket_name key] ∧
  fs (snd (download_docver docver_id file_name w)) !! p = Some n.
Proof.
  intros p key Hen Hp Hobj Hd Hmk.
  rewrite download_docver_local;
    [|done|apply path_exists_true; unfold p in Hp; rewrite Hp; eauto].
  fold p. fold (mirror_key (docver_path docver_id file_name)). fold key.
  unfold mbind, M_bind, mkdir_parents. rewrite Hmk.
  unfold client_download_file, s3_get. simpl. rewrite Hd, Hobj. simpl.
  repeat split. by eapply mkdir_from_keeps.
Qed.

(** [download_page_txt], case by case. *)
Lemma download_page_txt_run (page_id : UUID) (w : World) :
  let abs_path := abs_page_txt_path page_id in
  let keyname := mirror_key (page_txt_path page_id) in
  download_page_txt page_id w =
  if is_enabled then
    if path_exists (fs w) abs_path then (Ok tt, w)
    else
      match s3_head (remote w) get_bucket_name keyname with
      | S3Ok _ =>
          (mkdir_parents (parent abs_path) ;;
           client_download_file get_bucket_name keyname abs_path)
            (log_call (HeadObject get_bucket_name keyname) w)
      | S3ClientError _ =>
          (Raise (ValueError (keyname +:+ " not found on S3")),
           log_call (HeadObject get_bucket_name keyname) w)
      | S3NoConnection =>
          (Raise EndpointConnectionError,
           log_call (HeadObject get_bucket_name keyname) w)
      end
  else (Ok tt, w).
Proof.
  intros abs_path keyname.
  unfold download_page_txt, skip_if_s3_disabled. destruct is_enabled; [|reflexivity].
  unfold mbind at 1. unfold M_bind at 1. unfold get_world at 1. cbv beta iota.
  fold abs_path. destruct (path_exists (fs w) abs_path); [reflexivity|].
  fold (mirror_key (page_txt_path page_id)). fold keyname.
  unfold mbind at 1. unfold M_bind at 1. rewrite obj_exists_run.
  destruct (s3_head (remote w) get_bucket_name keyname); reflexivity.
Qed.

Lemma download_page_txt_cached (page_id : UUID) (w : World) :
  path_exists (fs w) (abs_page_txt_path page_id) = true →
  download_page_txt page_id w = (Ok tt, w).
Proof.
  intros Hex. rewrite download_page_txt_run. cbv zeta. rewrite Hex.
  by destruct is_enabled.
Qed.

(** A fetch that returns normally has written the file. *)
Lemma fetch_ok_exists (dir file : Path) (bucket : option string) (key : string)
    (w : World) :
  fst ((mkdir_parents dir ;; client_download_file bucket key file) w) = Ok tt →
  path_exists (fs (snd ((mkdir_parents dir ;; client_download_file bucket key file) w)))
    file = true.
Proof.
  unfold mbind, M_bind, mkdir_parents, client_download_file, write_file.
  repeat case_match; simplify_eq; simpl; try discriminate; intros _.
  all: apply path_exists_true; rewrite lookup_insert_eq; eauto.
Qed.

(** X6: [download_page_txt] is idempotent.  After a call that returned
    normally, a second call right after it sends no request and changes
    nothing; with the mirror enabled the text file is then on disk. *)
Theorem download_page_txt_twice (page_id : UUID) (w : World) :
  fst (download_page_txt page_id w) = Ok tt →
  let w1 := snd (download_page_txt page_id w) in
  download_page_txt page_id w1 = (Ok tt, w1) ∧
  (is_enabled = true → path_exists (fs w1) (abs_page_txt_path page_id) = true).
Proof.
  intros Hok w1.
  assert (is_enabled = true → path_exists (fs w1) (abs_page_txt_path page_id) = true)
    as Hex.
  { intros Hen. subst w1. revert Hok. rewrite download_page_txt_run. cbv zeta.
    rewrite Hen.
    destruct (path_exists (fs w) (abs_page_txt_path page_id)) eqn:Hp; [done|].
    destruct (s3_head _ _ _); simpl; try discriminate.
    apply fetch_ok_exists. }
  split; [|exact Hex].
  destruct is_enabled eqn:Hen.
  - apply download_page_txt_cached. by apply Hex.
  - rewrite download_page_txt_run. cbv zeta. by rewrite Hen.
Qed.

(** X7: with the mirror enabled, a page text that is neither on disk
    nor reported by the store makes [download_page_txt] raise
    [ValueError] after a single HEAD request, without touching the
    local files. *)
Theorem download_page_txt_missing_raises (page_id : UUID) (w : World) (code : Z) :
  is_enabled = true →
  path_exists (fs w) (abs_page_txt_path page_id) = false →
  s3_head (remote w) get_bucket_name (mirror_key (page_txt_path page_id))
    = S3ClientError code →
  let r := download_page_txt page_id w in
  fst r = Raise (ValueError (mirror_key (page_txt_path page_id) +:+ " not found on S3")) ∧
  calls (snd r) =
    calls w ++ [HeadObject get_bucket_name (mirror_key (page_txt_path page_id))] ∧
  fs (snd r) = fs w.
Proof.
  intros Hen Hex Hhead r. subst r.
  rewrite download_page_txt_run. cbv zeta. rewrite Hen, Hex, Hhead. done.
Qed.

End MirrorMore.

(** * The local cache only grows *)

Section CacheFacts.
Context {cfg : Settings} {cst : Const} {pl : Plib}.

Lemma cache_grows_same (w w' : World) :
  fs w' = fs w → remote w' = remote w → cache_grows w w'.
Proof. intros Hf Hr. split; [|done]. intros q. by rewrite Hf. Qed.

Lemma cache_grows_refl (w : World) : cache_grows w w.
Proof. by apply cache_grows_same. Qed.

Lemma cache_grows_trans (w1 w2 w3 : World) :
  cache_grows w1 w2 → cache_grows w2 w3 → cache_grows w1 w3.
Proof.
  intros [Hf1 Hr1] [Hf2 Hr2]. split; [|congruence].
  intros q Hq. by apply Hf2, Hf1.
Qed.

(** Sequencing keeps the cache growing. *)
Lemma cache_grows_bind {A B} (m : M A) (k : A → M B) (w : World) :
  cache_grows w (snd (m w)) →
  (∀ a w', cache_grows w' (snd (k a w'))) →
  cache_grows w (snd ((m ≫= k) w)).
Proof.
  intros Hm Hk. unfold mbind, M_bind.
  destruct (m w) as [[a|e] w1]; simpl in *; [|done].
  eapply cache_grows_trans; [exact Hm|apply Hk].
Qed.

Lemma cache_grows_mkdir (dir : Path) (w : World) :
  cache_grows w (snd (mkdir_parents dir w)).
Proof.
  unfold mkdir_parents. destruct (mkdir_from [] dir (fs w)) as [f|] eqn:Hmk;
    [|apply cache_grows_refl].
  split; [|done]. intros q Hq. simpl.
  apply path_exists_true in Hq as [n Hn]. apply path_exists_true.
  exists n. by eapply mkdir_from_keeps.
Qed.

Lemma cache_grows_write (file : Path) (data : Bytes) (w : World) :
  cache_grows w (snd (write_file file data w)).
Proof.
  unfold write_file. repeat case_match; try apply cache_grows_refl.
  all: split; [|done]; intros q Hq; simpl; apply path_exists_true.
  all: apply path_exists_true in Hq as [nd Hnd].
  all: destruct (decide (file = q)) as [->|Hne];
    [rewrite lookup_insert_eq|rewrite lookup_insert_ne by done]; eauto.
Qed.

Lemma cache_grows_log (c : remote_call) (w w' : World) :
  cache_grows (log_call c w) w' → cache_grows w w'.
Proof. intros [Hf Hr]. split; [exact Hf|exact Hr]. Qed.

Lemma cache_grows_download_file (bucket : option string) (key : string) (file : Path)
    (w : World) :
  cache_grows w (snd (client_download_file bucket key file w)).
Proof.
  unfold client_download_file.
  destruct (s3_get (remote w) bucket key); simpl; try by apply cache_grows_same.
  eapply cache_grows_log, cache_grows_write.
Qed.

Lemma cache_grows_fetch (dir file : Path) (bucket : option string) (key : string)
    (w : World) :
  cache_grows w (snd ((mkdir_parents dir ;; client_download_file bucket key file) w)).
Proof.
  apply cache_grows_bind; [apply cache_grows_mkdir|].
  intros _ w'. apply cache_grows_download_file.
Qed.

Lemma cache_grows_download_one (page_id : UUID) (w : World) :
  cache_grows w (snd (download_one_pdf_page page_id w)).
Proof.
  rewrite download_one_pdf_page_run.
  destruct (s3_http_get _ _); simpl; [|by apply cache_grows_same].
  eapply cache_grows_log. apply cache_grows_bind; [apply cache_grows_mkdir|].
  intros _ w'. apply cache_grows_write.
Qed.

Lemma cache_grows_run_order (page_ids : list UUID) (order : list nat) (w : World) :
  cache_grows w (snd (mapM (coro_at page_ids) order w)).
Proof.
  revert w. induction order as [|i order IH]; intros w; [apply cache_grows_refl|].
  rewrite mapM_cons_run.
  assert (cache_grows w (snd (coro_at page_ids i w))) as Hi.
  { rewrite coro_at_lookup. destruct (page_ids !! i);
      [apply cache_grows_download_one|apply cache_grows_refl]. }
  destruct (coro_at page_ids i w) as [[[]|e] w1]; simpl in Hi; [|done].
  specialize (IH w1).
  destruct (mapM (coro_at page_ids) order w1) as [[k|e] w2]; simpl in *;
    by eapply cache_grows_trans.
Qed.

(** X8: the three download operations never remove or rename anything
    in the local cache and never change the bucket: every path that
    exists before the call exists after it, and the store holds the
    same objects, whether the call returns or raises. *)
Theorem downloads_only_add_to_the_cache (w : World) (docver_id page_id : UUID)
    (file_name : string) (target_page_ids : list UUID) :
  cache_grows w (snd (download_docver docver_id file_name w)) ∧
  cache_grows w (snd (download_page_txt page_id w)) ∧
  cache_grows w (snd (download_pdf_pages target_page_ids w)).
Proof.
  split; [|split].
  - rewrite download_docver_run. cbv zeta.
    destruct is_enabled; [|apply cache_grows_refl].
    destruct (path_exists _ _); [apply cache_grows_fetch|].
    destruct (s3_head _ _ _); simpl; try by apply cache_grows_same.
    eapply cache_grows_log, cache_grows_fetch.
  - rewrite download_page_txt_run. cbv zeta.
    destruct is_enabled; [|apply cache_grows_refl].
    destruct (path_exists _ _); [apply cache_grows_refl|].
    destruct (s3_head _ _ _); simpl; try by apply cache_grows_same.
    eapply cache_grows_log, cache_grows_fetch.
  - rewrite download_pdf_pages_run.
    destruct is_enabled; [|apply cache_grows_refl]. cbv zeta.
    pose proof (cache_grows_run_order (queued_for_download (fs w) target_page_ids)
      (loop_order w (length (queued_for_download (fs w) target_page_ids))) w) as H.
    by destruct (mapM (M := M) _ _ w) as [[k|e] w1].
Qed.

(** In a run that returns normally, every index is one of the batch,
    and the requests sent are those of the pages at these indices, in
    the order they were run. *)
Lemma run_order_ok (page_ids : list UUID) (order : list nat) (w w' : World)
    (k : list unit) :
  mapM (coro_at page_ids) order w = (Ok k, w') →
  calls w' = calls w ++
    ((λ i, HttpGet (page_pdf_url (default "" (page_ids !! i)))) <$> order).
Proof.
  revert w k. induction order as [|i order IH]; intros w k Hrun.
  - assert ((Ok (@nil unit), w) = (Ok k, w')) as Heq by exact Hrun.
    simplify_eq. simpl. by rewrite app_nil_r.
  - rewrite mapM_cons_run in Hrun.
    pose proof (coro_at_lookup page_ids i) as Hi.
    destruct (coro_at page_ids i w) as [[[]|e] w1] eqn:Hc; [|discriminate].
    destruct (mapM (coro_at page_ids) order w1) as [[k'|e] w2] eqn:Hrest;
      [|discriminate].
    simplify_eq. rewrite (IH _ _ Hrest).
    rewrite Hi in Hc. destruct (page_ids !! i) as [p|] eqn:Hp; [|discriminate].
    destruct (download_one_pdf_page_frame p w) as [_ Hcalls].
    rewrite Hc in Hcalls. simpl in Hcalls. rewrite Hcalls.
    rewrite fmap_cons, <- app_assoc. simpl. do 3 f_equal.
    symmetry. exact (f_equal (λ o, page_pdf_url (default "" o)) Hp).
Qed.

Lemma fmap_lookup_seq (l : list UUID) (g : UUID → remote_call) :
  (λ i, g (default "" (l !! i))) <$> seq 0 (length l) = g <$> l.
Proof.
  induction l as [|x l IH] using rev_ind; [reflexivity|].
  rewrite length_app. simpl. rewrite Nat.add_1_r, seq_S, !fmap_app. simpl.
  f_equal.
  - rewrite <- IH. apply list_fmap_ext. intros i j Hj.
    apply lookup_seq in Hj as [-> Hlt]. simpl.
    do 2 f_equal. by apply lookup_app_l.
  - do 2 f_equal. change (default "" ((l ++ [x]) !! length l) = x).
    by rewrite list_lookup_middle.
Qed.

(** X9: when the batched fetch returns normally, it has sent exactly
    one GET per page whose PDF was not on disk, and none for the
    others; the requests are those of the queued pages, up to the
    order in which the event loop ran them. *)
Theorem batch_fetch_requests_each_missing_page_once (target_page_ids : list UUID)
    (w : World) :
  is_enabled = true →
  (∀ n, loop_order w n ≡ₚ seq 0 n) →
  fst (download_pdf_pages target_page_ids w) = Ok tt →
  ∃ new,
    calls (snd (download_pdf_pages target_page_ids w)) = calls w ++ new ∧
    new ≡ₚ (λ page_id, HttpGet (page_pdf_url page_id))
             <$> queued_for_download (fs w) target_page_ids.
Proof.
  intros Hen Hloop. rewrite download_pdf_pages_run, Hen. cbv zeta.
  set (q := queued_for_download (fs w) target_page_ids).
  destruct (mapM (M := M) (coro_at q) (loop_order w (length q)) w) as [[k|e] w1] eqn:Hrun;
    [|discriminate].
  intros _. simpl. eexists. split; [exact (run_order_ok _ _ _ _ _ Hrun)|].
  rewrite (Hloop (length q)).
  by rewrite (fmap_lookup_seq q (λ page_id, HttpGet (page_pdf_url page_id))).
Qed.

(** X10: when every page of the list has its PDF on disk, the batched
    fetch has nothing to do: no request is sent and nothing changes. *)
Theorem batch_fetch_nothing_to_do (target_page_ids : list UUID) (w : World) :
  (∀ n, loop_order w n ≡ₚ seq 0 n) →
  (∀ page_id, page_id ∈ target_page_ids →
     path_exists (fs w) (abs_page_path page_id ++ [PAGE_PDF]) = true) →
  download_pdf_pages target_page_ids w = (Ok tt, w).
Proof.
  intros Hloop Hall. rewrite download_pdf_pages_run.
  destruct is_enabled; [|reflexivity]. cbv zeta.
  assert (queued_for_download (fs w) target_page_ids = []) as ->.
  { unfold queued_for_download. induction target_page_ids as [|x l IH]; [done|].
    rewrite filter_cons_False.
    - apply IH. intros p Hp. apply Hall. by apply list_elem_of_further.
    - rewrite Hall; [discriminate|]. apply list_elem_of_here. }
  simpl. pose proof (Hloop 0%nat) as H0. simpl in H0.
  apply Permutation_nil_r in H0. rewrite H0. reflexivity.
Qed.

End CacheFacts.

(** * Publishing a page directory *)

Section PageDirFacts.
Context {cfg : Settings} {cst : Const} {pl : Plib}.

Lemma for_each_cons_run {A} (x : A) (l : list A) (body : A → M unit) (w : World) :
  for_each (x :: l) body w =
  match body x w with
  | (Ok _, w1) => for_each l body w1
  | (Raise e, w1) => (Raise e, w1)
  end.
Proof. simpl. unfold mbind, M_bind. by destruct (body x w) as [[[]|e] w1]. Qed.

(** An entry of [dir.glob("*")] is [dir / name]. *)
Lemma glob_star_child (f : gmap Path node) (dir q : Path) :
  q ∈ glob_star f dir → q = dir ++ [default "" (last q)].
Proof.
  unfold glob_star. intros Hq. apply list_elem_of_filter in Hq as [[Hne Hpar] _].
  destruct (exists_last Hne) as (q' & x & ->).
  unfold parent in Hpar. rewrite removelast_last in Hpar. subst q'.
  by rewrite last_snoc.
Qed.

(** One round of the loop of [upload_page_dir], when the store accepts
    every request. *)
Lemma upload_entry_run (page_id : UUID) (q : Path) (w : World) :
  is_enabled = true →
  (∀ name, rel2abs (page_path page_id ++ [name]) = abs_page_path page_id ++ [name]) →
  q = abs_page_path page_id ++ [default "" (last q)] →
  (∀ c, fault (remote w) c = None) →
  ∃ w1,
    (w' ← get_world;
     if path_is_file (fs w') q then
       upload_file (page_path page_id ++ [default "" (last q)])
     else mret tt) w = (Ok tt, w1) ∧
    fs w1 = fs w ∧
    (∀ c, fault (remote w1) c = None) ∧
    calls w1 = calls w ++
      (if path_is_file (fs w) q then [page_file_upload page_id q] else []).
Proof.
  intros Hen Hlaw Hq Hflt.
  unfold mbind, M_bind, get_world. cbv beta iota.
  destruct (path_is_file (fs w) q) eqn:Hfile.
  - rewrite upload_file_run, Hen, Hlaw, <- Hq.
    unfold path_is_file in Hfile.
    destruct (fs w !! q) as [[b|]|] eqn:Hf; try discriminate.
    unfold s3_put. rewrite Hflt. eexists. split; [reflexivity|]. simpl. done.
  - exists w. simpl. by rewrite app_nil_r.
Qed.

(** The loop of [upload_page_dir] over entries of the page directory,
    when the store accepts every request. *)
Lemma upload_each_run (page_id : UUID) (l : list Path) (w : World) :
  is_enabled = true →
  (∀ name, rel2abs (page_path page_id ++ [name]) = abs_page_path page_id ++ [name]) →
  Forall (λ q, q = abs_page_path page_id ++ [default "" (last q)]) l →
  (∀ c, fault (remote w) c = None) →
  let r := for_each l (λ path,
             w' ← get_world;
             if path_is_file (fs w') path then
               upload_file (page_path page_id ++ [default "" (last path)])
             else mret tt) w in
  fst r = Ok tt ∧
  fs (snd r) = fs w ∧
  calls (snd r) =
    calls w ++ (page_file_upload page_id <$> filter (λ q, path_is_file (fs w) q = true) l).
Proof.
  intros Hen Hlaw Hall. revert w. induction Hall as [|q l Hq Hall IH]; intros w Hflt r.
  - subst r. simpl. by rewrite app_nil_r.
  - subst r. rewrite for_each_cons_run.
    destruct (upload_entry_run page_id q w Hen Hlaw Hq Hflt)
      as (w1 & -> & Hfs1 & Hflt1 & Hcalls1).
    destruct (IH w1 Hflt1) as (Hok & Hfs & Hcalls).
    split; [exact Hok|]. split; [congruence|].
    rewrite Hcalls, Hcalls1, Hfs1, <- app_assoc. f_equal.
    destruct (path_is_file (fs w) q) eqn:Hfile.
    + by rewrite filter_cons_True.
    + rewrite filter_cons_False; [done|]. rewrite Hfile. discriminate.
Qed.

(** X11: with the mirror enabled and the store accepting the requests,
    [upload_page_dir] sends one upload request for each regular file
    directly inside the page directory and none for anything else
    (sub-directories are skipped; an empty or absent directory sends
    nothing); each key is the mirrored page path followed by the file
    name; the local files are left as they are. *)
Theorem upload_page_dir_uploads_regular_files (page_id : UUID) (w : World) :
  is_enabled = true →
  (∀ name, rel2abs (page_path page_id ++ [name]) = abs_page_path page_id ++ [name]) →
  (∀ c, fault (remote w) c = None) →
  let r := upload_page_dir page_id w in
  fst r = Ok tt ∧
  fs (snd r) = fs w ∧
  calls (snd r) =
    calls w ++
    (page_file_upload page_id <$>
       filter (λ q, path_is_file (fs w) q = true)
              (glob_star (fs w) (abs_page_path page_id))).
Proof.
  intros Hen Hlaw Hflt r. subst r.
  unfold upload_page_dir. rewrite skip_enabled by done.
  unfold mbind at 1. unfold M_bind at 1. unfold get_world at 1. cbv beta iota zeta.
  apply upload_each_run; try done.
  apply Forall_forall. intros q Hq. by eapply glob_star_child.
Qed.

(** X20: a page PDF published by one worker is what the batched fetch
    of another worker stores.  When [upload_file] has published the
    PDF of a page (its relative path naming the same file as its
    absolute path), the coroutine that fetches that page against that
    bucket returns normally and writes the very bytes that were
    published. *)
Theorem page_pdf_round_trip (page_id : UUID) (w w2 : World) (b : Bytes)
    (f : gmap Path node) :
  let rel := page_path page_id ++ [PAGE_PDF] in
  is_enabled = true →
  rel2abs rel = page_pdf_file page_id →
  fs w !! page_pdf_file page_id = Some (File b) →
  (∀ c, fault (remote w) c = None) →
  remote w2 = remote (snd (upload_file rel w)) →
  mkdir_from [] (abs_page_path page_id) (fs w2) = Some f →
  f !! page_pdf_file page_id ≠ Some Dir →
  fst (upload_file rel w) = Ok tt ∧
  fst (download_one_pdf_page page_id w2) = Ok tt ∧
  fs (snd (download_one_pdf_page page_id w2)) !! page_pdf_file page_id = Some (File b).
Proof.
  intros rel Hen Hrel Hf Hflt Hrem Hmk Hnd.
  rewrite upload_file_run, Hen in Hrem |- *. rewrite Hrel, Hf in Hrem |- *.
  unfold s3_put in Hrem |- *. rewrite Hflt in Hrem |- *. simpl in Hrem.
  split; [reflexivity|].
  rewrite download_one_pdf_page_run. unfold s3_http_get. rewrite Hrem. simpl.
  rewrite Hflt. unfold mirror_key, rel. rewrite lookup_insert_eq.
  unfold mbind, M_bind, mkdir_parents. simpl. rewrite Hmk.
  unfold write_file. simpl. rewrite parent_page_pdf_file, (mkdir_is_dir _ _ _ Hmk).
  destruct (f !! page_pdf_file page_id) as [[b'|]|] eqn:Hd; simpl.
  - split; [done|]. apply lookup_insert_eq.
  - contradiction.
  - split; [done|]. apply lookup_insert_eq.
Qed.

End PageDirFacts.

(** * Further properties of the top-level task *)

Section TaskMore.
Context {cfg : Settings} {cst : Const} {pl : Plib} {mt : Mimetypes}.

(** X12: queue names do not collide within a deployment: two logical
    names that get the same prefixed queue name are the same name. *)
Theorem prefixed_inj (name1 name2 : string) :
  prefixed name1 = prefixed name2 → name1 = name2.
Proof.
  unfold prefixed. destruct (negb (String.eqb papermerge__main__prefix "")); [|done].
  intros Heq. apply (inj (String.append papermerge__main__prefix)) in Heq.
  by apply (inj (String.append "_")) in Heq.
Qed.

(** X13: the language code is case-insensitive: two submissions that
    differ only by the case of the language behave identically, down
    to the workflow submitted. *)
Theorem language_case_is_ignored (document_id lang1 lang2 : string) (w : World) :
  lower lang1 = lower lang2 →
  ocr_document_task document_id lang1 w = ocr_document_task document_id lang2 w.
Proof. intros Hl. rewrite !ocr_document_task_run. by rewrite Hl. Qed.

(** What a run of the body does to the broker. *)
Lemma body_broker (document_id lang : string) (w : World) :
  match fst (ocr_document_task document_id lang w) with
  | Ok _ => ∃ wf, broker (snd (ocr_document_task document_id lang w)) = broker w ++ [wf]
  | Raise _ => broker (snd (ocr_document_task document_id lang w)) = broker w
  end.
Proof.
  pose proof (ocr_document_task_effects document_id lang w) as Heff. cbv zeta in Heff.
  destruct (fst (db_get_last_version document_id w)) as [doc_ver|e].
  - destruct (fst (ocr_document_task document_id lang w)) as [[]|e'].
    + destruct Heff as (_ & Hb & _). eauto.
    + by destruct Heff as (_ & Hb & _).
  - by rewrite Heff.
Qed.

Lemma deliver_S (fuel : nat) (opts : task_options) (env : nat → World → World)
    (r : nat) (body : M unit) (w : World) :
  deliver (S fuel) opts env r body w =
  match run_task opts r body w with
  | (Retry d e, w') =>
      (Retry d e :: fst (deliver fuel opts env (S r) body (env r w')),
       snd (deliver fuel opts env (S r) body (env r w')))
  | (o, w') => ([o], w')
  end.
Proof.
  simpl. destruct (run_task opts r body w) as [[|d e|e] w1]; try reflexivity.
  by destruct (deliver fuel opts env (S r) body (env r w1)).
Qed.

(** X14: one submission submits at most one workflow, however many
    times it is retried: when the surroundings leave the broker alone
    between deliveries, the broker has gained exactly one workflow if
    the last delivery succeeded, and nothing otherwise. *)
Theorem submission_submits_at_most_one_workflow (env : nat → World → World)
    (document_id lang : string) (w : World) :
  (∀ k w', broker (env k w') = broker w') →
  let r := submit_ocr_document env document_id lang w in
  (last (fst r) = Some Succeeded → ∃ wf, broker (snd r) = broker w ++ [wf]) ∧
  (last (fst r) ≠ Some Succeeded → broker (snd r) = broker w).
Proof.
  intros Henv r. subst r. unfold submit_ocr_document.
  generalize (S (max_retries ocr_document_task_options)) as fuel.
  generalize 0%nat as n. intros n fuel. revert n w.
  induction fuel as [|fuel IH]; intros n w.
  - simpl. split; [discriminate|done].
  - rewrite deliver_S. pose proof (body_broker document_id lang w) as Hb.
    pose proof (run_task_world ocr_document_task_options n
                  (ocr_document_task document_id lang) w) as Hw.
    pose proof (run_task_succeeded ocr_document_task_options n
                  (ocr_document_task document_id lang) w) as Hs.
    destruct (run_task ocr_document_task_options n
                (ocr_document_task document_id lang) w) as [[|d e|e] w1] eqn:Hrun;
      simpl in Hw, Hs; rewrite <- Hw in Hb.
    + rewrite (proj1 Hs eq_refl) in Hb. simpl. split; [done|].
      intros Hne. by contradiction Hne.
    + apply run_task_retry in Hrun as (_ & _ & _ & Hbody). rewrite Hbody in Hb.
      simpl in Hb. simpl fst. simpl snd.
      destruct (IH (S n) (env n w1)) as [IH1 IH2].
      rewrite Henv, Hb in IH1, IH2. rewrite last_cons.
      destruct (last (fst (deliver fuel ocr_document_task_options env (S n)
                  (ocr_document_task document_id lang) (env n w1)))) as [o|] eqn:Hlast.
      * split; [exact IH1|exact IH2].
      * split; [discriminate|]. intros _. apply IH2. discriminate.
    + simpl. split; [discriminate|]. intros _.
      destruct (fst (ocr_document_task document_id lang w)) as [[]|e'] eqn:Hf.
      * by specialize (proj2 Hs eq_refl).
      * exact Hb.
Qed.

(** A delivery that finds the source reported missing ends in a retry
    while the budget lasts, and in a failure afterwards. *)
Lemma run_task_source_missing (document_id lang : string) (w : World) (r : nat) :
  source_reported_missing document_id w →
  ∃ msg,
    run_task ocr_document_task_options r (ocr_document_task document_id lang) w =
    (if bool_decide (r < 6)%nat then Retry 10 (S3DocumentNotFound msg)
     else Failure (S3DocumentNotFound msg),
     snd (ocr_document_task document_id lang w)).
Proof.
  intros Hmiss.
  apply (ocr_document_task_not_found document_id lang w) in Hmiss as [msg Hm].
  exists msg. unfold run_task.
  destruct (ocr_document_task document_id lang w) as [[[]|e] w1]; simpl in Hm;
    [discriminate|]. simplify_eq. simpl.
  repeat case_bool_decide; try lia; reflexivity.
Qed.

(** As long as the source is reported missing, the deliveries are
    retries. *)
Lemma deliver_retries (env : nat → World → World) (document_id lang : string)
    (k fuel r : nat) (w : World) :
  (r + k ≤ 6)%nat →
  (∀ j, (j < k)%nat →
     source_reported_missing document_id
       (delivery_world env (ocr_document_task document_id lang) r j w)) →
  ∃ es,
    length es = k ∧
    fst (deliver (k + fuel) ocr_document_task_options env r
           (ocr_document_task document_id lang) w) =
    (Retry 10 <$> es) ++
    fst (deliver fuel ocr_document_task_options env (r + k)
           (ocr_document_task document_id lang)
           (delivery_world env (ocr_document_task document_id lang) r k w)).
Proof.
  revert r w. induction k as [|k IH]; intros r w Hr Hmiss.
  - exists []. simpl. by rewrite Nat.add_0_r.
  - destruct (run_task_source_missing document_id lang w r (Hmiss 0%nat ltac:(lia)))
      as [msg Hrun].
    rewrite bool_decide_eq_true_2 in Hrun by lia.
    destruct (IH (S r) (env r (snd (ocr_document_task document_id lang w))))
      as (es & Hlen & Hes); [lia| |].
    { intros j Hj. apply (Hmiss (S j)). lia. }
    exists (S3DocumentNotFound msg :: es). split; [simpl; lia|].
    change (S k + fuel)%nat with (S (k + fuel)). rewrite deliver_S, Hrun.
    simpl fst. rewrite Hes. simpl. by rewrite Nat.add_succ_r.
Qed.

(** X15: if the source stays reported missing at every delivery, the
    submission is delivered 7 times: 6 retries, each scheduled 10
    seconds later, then a failure with [S3DocumentNotFound]. *)
Theorem submission_fails_when_source_never_appears (env : nat → World → World)
    (document_id lang : string) (w : World) :
  (∀ j, (j ≤ 6)%nat →
     source_reported_missing document_id
       (delivery_world env (ocr_document_task document_id lang) 0 j w)) →
  ∃ es msg,
    length es = 6%nat ∧
    fst (submit_ocr_document env document_id lang w) =
    (Retry 10 <$> es) ++ [Failure (S3DocumentNotFound msg)].
Proof.
  intros Hmiss. unfold submit_ocr_document.
  destruct (deliver_retries env document_id lang 6 1 0 w) as (es & Hlen & Hes); [lia| |].
  { intros j Hj. apply Hmiss. lia. }
  destruct (run_task_source_missing document_id lang
              (delivery_world env (ocr_document_task document_id lang) 0 6 w) 6
              (Hmiss 6%nat ltac:(lia))) as [msg Hrun].
  exists es, msg. split; [exact Hlen|].
  change (S (max_retries ocr_document_task_options)) with (6 + 1)%nat.
  rewrite Hes. f_equal. rewrite deliver_S. change (0 + 6)%nat with 6%nat.
  rewrite Hrun. reflexivity.
Qed.

(** X16: if the source is reported missing at the first k ≤ 6
    deliveries and the body runs to its end at the next one, the
    submission is k retries, each scheduled 10 seconds later, followed
    by a success. *)
Theorem submission_succeeds_once_source_appears (env : nat → World → World)
    (document_id lang : string) (w : World) (k : nat) :
  (k ≤ 6)%nat →
  (∀ j, (j < k)%nat →
     source_reported_missing document_id
       (delivery_world env (ocr_document_task document_id lang) 0 j w)) →
  fst (ocr_document_task document_id lang
         (delivery_world env (ocr_document_task document_id lang) 0 k w)) = Ok tt →
  ∃ es,
    length es = k ∧
    fst (submit_ocr_document env document_id lang w) = (Retry 10 <$> es) ++ [Succeeded].
Proof.
  intros Hk Hmiss Hok. unfold submit_ocr_document.
  destruct (deliver_retries env document_id lang k (S (6 - k)) 0 w)
    as (es & Hlen & Hes); [lia|exact Hmiss|].
  exists es. split; [exact Hlen|].
  replace (S (max_retries ocr_document_task_options)) with (k + S (6 - k))%nat
    by (simpl; lia).
  rewrite Hes. f_equal. rewrite deliver_S.
  apply (run_task_succeeded ocr_document_task_options (0 + k)) in Hok.
  destruct (run_task _ _ _ _) as [o w1]. simpl in Hok. by subst o.
Qed.

(** X19: a failure to reach the store is not retried.  With the mirror
    enabled and the source file not on disk, if the HEAD request gets
    no response, the delivery of the top-level task fails at once with
    the connection error, whatever the number of retries made, and no
    workflow is submitted. *)
Theorem connection_failure_is_not_retried (document_id lang : string) (w : World)
    (request_retries : nat) (doc_ver : DocVer) :
  fst (db_get_last_version document_id w) = Ok doc_ver →
  is_enabled = true →
  path_exists (fs w) (abs_docver_path (dv_id doc_ver) (dv_file_name doc_ver)) = false →
  s3_head (remote w) get_bucket_name
    (mirror_key (docver_path (dv_id doc_ver) (dv_file_name doc_ver))) = S3NoConnection →
  let r := run_task ocr_document_task_options request_retries
             (ocr_document_task document_id lang) w in
  fst r = Failure EndpointConnectionError ∧ broker (snd r) = broker w.
Proof.
  intros Hdb Hen Hex Hhead r. subst r.
  unfold run_task. rewrite ocr_document_task_run, Hdb. cbv zeta.
  rewrite download_docver_run. cbv zeta. rewrite Hen. simpl fs. rewrite Hex.
  simpl remote. unfold mirror_key in Hhead. rewrite Hhead. simpl. done.
Qed.

End TaskMore.

(** * The commit step when the sidecars need no download *)

Section CommitFacts.
Context {cfg : Settings} {cst : Const} {pl : Plib}.

Lemma db_increment_doc_ver_fs (document_id target_docver_uuid : UUID)
    (target_page_uuids : list UUID) (lang : string) (w : World) :
  fs (snd (db_increment_doc_ver document_id target_docver_uuid target_page_uuids lang w))
    = fs w ∧
  calls (snd (db_increment_doc_ver document_id target_docver_uuid target_page_uuids lang w))
    = calls w.
Proof.
  unfold db_increment_doc_ver, mbind, M_bind, db_get_last_version, modify.
  by repeat case_match; simplify_eq.
Qed.

(** One round of the loop of [update_db_task], for a page whose sidecar
    is on disk already or whose download is switched off. *)
Lemma page_stream_local (page : Page) (w : World) :
  is_enabled = false ∨ path_exists (fs w) (abs_page_txt_path (pg_id page)) = true →
  fs w !! abs_page_txt_path (pg_id page) ≠ Some Dir →
  (download_page_txt (pg_id page) ;;
   w' ← get_world;
   if path_exists (fs w') (abs_page_txt_path (pg_id page))
   then open_text (abs_page_txt_path (pg_id page))
   else mret []) w = (Ok (sidecar_text (fs w) page), w).
Proof.
  intros Hnoop Hnd. unfold mbind at 1. unfold M_bind at 1.
  assert (download_page_txt (pg_id page) w = (Ok tt, w)) as ->.
  { destruct Hnoop as [Hdis|Hex]; [|by apply download_page_txt_cached].
    unfold download_page_txt. by apply skip_disabled. }
  unfold mbind, M_bind, get_world, open_text, sidecar_text.
  destruct (fs w !! abs_page_txt_path (pg_id page)) as [[b|]|] eqn:Hf.
  - rewrite (proj2 (path_exists_true _ _)) by (rewrite Hf; eauto).
    rewrite Hf. reflexivity.
  - contradiction.
  - rewrite (proj2 (path_exists_false _ _)) by exact Hf. reflexivity.
Qed.

(** X17: the commit step, when no sidecar has to be downloaded (the
    mirror is disabled, or each new page has its text file on disk):
    once the new version and its pages are recorded, [update_db_task]
    returns normally, sends no request, leaves the files alone, and
    attaches to each new page the content of its sidecar file, or the
    empty text when the file is absent. *)
Theorem commit_attaches_local_sidecars (doc_id : UUID) (lang : string)
    (target_docver_id : UUID) (target_page_ids : list UUID) (w w1 : World) :
  db_increment_doc_ver doc_id target_docver_id target_page_ids lang w = (Ok tt, w1) →
  let pages := filter (λ p, pg_document_version_id p = target_docver_id)
                      (db_pages (db w1)) in
  (∀ p, p ∈ pages →
     (is_enabled = false ∨ path_exists (fs w) (abs_page_txt_path (pg_id p)) = true) ∧
     fs w !! abs_page_txt_path (pg_id p) ≠ Some Dir) →
  update_db_task doc_id lang target_docver_id target_page_ids w =
  (Ok tt,
   set_db {| db_versions := db_versions (db w1);
             db_pages := attach_texts target_docver_id (db_pages (db w1))
                           (sidecar_text (fs w) <$> pages) |} w1) ∧
  fs w1 = fs w ∧ calls w1 = calls w.
Proof.
  intros Hinc pages Hpages.
  destruct (db_increment_doc_ver_fs doc_id target_docver_id target_page_ids lang w)
    as [Hfs Hcalls].
  rewrite Hinc in Hfs, Hcalls. simpl in Hfs, Hcalls.
  split; [|done].
  unfold update_db_task. unfold mbind at 1. unfold M_bind at 1. rewrite Hinc.
  unfold mbind at 1. unfold M_bind at 1. unfold db_get_pages at 1. cbv beta iota.
  fold pages. unfold mbind at 1. unfold M_bind at 1.
  match goal with
  | |- context [mapM ?g pages w1] =>
      assert (mapM g pages w1 = (Ok (sidecar_text (fs w) <$> pages), w1)) as ->
  end.
  { rewrite <- Hfs in Hpages |- *. clear Hinc Hcalls Hfs.
    induction pages as [|p ps IH]; [reflexivity|].
    rewrite mapM_cons_run.
    destruct (Hpages p (list_elem_of_here _ _)) as [Hnoop Hnd].
    rewrite (page_stream_local p w1 Hnoop Hnd).
    rewrite IH; [reflexivity|].
    intros p' Hp'. apply Hpages. by apply list_elem_of_further. }
  reflexivity.
Qed.

End CommitFacts.

(** * The notifications at the end of the chain *)

Section NotifyFacts.
Context {cfg : Settings} {cst : Const} {pl : Plib} {mt : Mimetypes}
  {ocr : OcrEngine} {pdf : PdfLib}.

(** X18: the workflow submitted by a successful run has five links,
    and its last two, once run, send exactly two messages, both
    carrying the document identifier the top-level task was given: the
    preview request on route ["s3preview"], then the index request on
    route ["i3"]; they touch nothing else. *)
Theorem notifications_carry_document_id (document_id lang : string) (w w' : World) :
  ocr_document_task document_id lang w = (Ok tt, w') →
  ∃ wf s_preview s_index,
    broker w' = broker w ++ [wf] ∧
    length wf = 5%nat ∧
    task_at wf 3 0 = Some s_preview ∧
    task_at wf 4 0 = Some s_index ∧
    ∀ v, (run_signature s_preview ;; run_signature s_index) v =
         (Ok tt,
          post {| st_name := INDEX_ADD_DOCS; st_doc_id := document_id;
                  st_as_list := true; st_route_name := "i3" |}
            (post {| st_name := S3_WORKER_GENERATE_PREVIEW; st_doc_id := document_id;
                     st_as_list := false; st_route_name := "s3preview" |} v)).
Proof.
  intros Hrun.
  pose proof (ocr_document_task_effects document_id lang w) as Heff. cbv zeta in Heff.
  rewrite Hrun in Heff. simpl in Heff.
  destruct (fst (db_get_last_version document_id w)) as [doc_ver|e];
    [|discriminate].
  destruct Heff as (_ & Hb & _).
  eexists _, _, _. split; [exact Hb|]. split; [reflexivity|].
  split; [reflexivity|]. split; [reflexivity|]. intros v. reflexivity.
Qed.

End NotifyFacts.
(** * The properties at concrete deployments *)

Import Sample.

(** C9 at a deployment with nothing configured. *)
Lemma disabled_mirror_is_noop_witness :
  let w := Sample.cold in
  download_docver (cfg := Sample.disabled) "v1" "invoice.pdf" w = (Ok tt, w) ∧
  upload_page_dir (cfg := Sample.disabled) "p1" w = (Ok tt, w) ∧
  upload_file (cfg := Sample.disabled) ["pages"; "p1"; "page.pdf"] w = (Ok tt, w) ∧
  download_page_txt (cfg := Sample.disabled) "p1" w = (Ok tt, w) ∧
  download_pdf_pages (cfg := Sample.disabled) ["p1"] w = (Ok tt, w).
Proof.
  apply (disabled_mirror_is_noop (cfg := Sample.disabled)).
  left. reflexivity.
Defined.

(** C3, on the code: a first [download_docver] brings the file of
    version ["v1"] to the local cache; a second one, run right after it
    with the file on disk, skips the existence check and still sends a
    download request to the object store. *)
Theorem download_docver_cached_still_downloads :
  fst (download_docver (cfg := enabled) "v1" "invoice.pdf" cold) = Ok tt ∧
  path_exists (fs warm) (abs_docver_path "v1" "invoice.pdf") = true ∧
  fst (download_docver (cfg := enabled) "v1" "invoice.pdf" warm) = Ok tt ∧
  calls (snd (download_docver (cfg := enabled) "v1" "invoice.pdf" warm)) =
    calls warm ++ [DownloadFile (Some "papermerge") "demo/docvers/v1/invoice.pdf"].
Proof. vm_compute. repeat split; reflexivity. Qed.

(** C4 fails as stated: the object exists and the HEAD request is
    answered with status 403, not with not-found, yet [obj_exists]
    returns [False] instead of raising. *)
Lemma obj_exists_false_though_present :
  objects (remote head_refused) !! v1_key = Some pdf_bytes ∧
  s3_head (remote head_refused) (Some "papermerge") "demo/docvers/v1/invoice.pdf"
    = S3ClientError 403 ∧
  fst (obj_exists (cfg := enabled) "demo/docvers/v1/invoice.pdf" head_refused) = Ok false.
Proof. vm_compute. repeat split; reflexivity. Qed.

(** C1 fails as stated: the source file is not yet in the bucket at the
    first delivery, which draws ["uuid-0"] and ["uuid-1"] and ends in a
    retry; the second delivery, after the upload, draws again, and the
    workflow it submits carries ["uuid-2"] and ["uuid-3"]. *)
Lemma retry_draws_new_identifiers :
  let body := ocr_document_task (cfg := enabled) "doc" "ENG" in
  let first := run_task ocr_document_task_options 0 body (nowhere "invoice.pdf") in
  let second := run_task ocr_document_task_options 1 body (upload_arrives 0 (snd first)) in
  fst (allocate_targets (db_pages (db1 "invoice.pdf")) (nowhere "invoice.pdf"))
    = Ok ("uuid-0", ["uuid-1"]) ∧
  fst first = Retry 10 (S3DocumentNotFound "S3 key demo/docvers/v1/invoice.pdf not found") ∧
  uuid_drawn (snd first) = 2%nat ∧
  fst second = Succeeded ∧
  (∃ v1, broker (snd second) = [ocr_workflow (cfg := enabled) v1 "doc" "eng" "uuid-2" ["uuid-3"]]) ∧
  fst (submit_ocr_document (cfg := enabled) upload_arrives "doc" "ENG" (nowhere "invoice.pdf"))
    = [fst first; fst second].
Proof.
  vm_compute. repeat split.
  eexists {| dv_id := "v1"; dv_document_id := "doc"; dv_number := 1;
             dv_file_name := "invoice.pdf"; dv_lang := "deu" |}.
  reflexivity.
Qed.

(** C5 fails as stated: with the mirror disabled, the source file is on
    neither side and the delivery is not rescheduled; it even succeeds. *)
Lemma missing_source_not_retried_when_disabled :
  path_exists (fs (nowhere "invoice.pdf")) (abs_docver_path "v1" "invoice.pdf") = false ∧
  objects (remote (nowhere "invoice.pdf")) = ∅ ∧
  fst (run_task ocr_document_task_options 0
         (ocr_document_task (cfg := disabled) "doc" "eng") (nowhere "invoice.pdf"))
    = Succeeded.
Proof. vm_compute. repeat split; reflexivity. Qed.



(** C2, on the code: the commit step runs for the new page ["uuid-1"],
    whose text sidecar is neither on disk nor in the bucket.  With the
    mirror enabled, [download_page_txt] raises and the commit fails;
    the branch that sets the page text to the empty string is reached
    with the mirror disabled only. *)
Theorem update_db_task_fails_without_sidecar :
  let w := nowhere "invoice.pdf" in
  path_exists (fs w) (abs_page_txt_path "uuid-1") = false ∧
  objects (remote w) !! (Some "papermerge", "demo/pages/uuid-1/page.txt") = None ∧
  fst (update_db_task (cfg := enabled) "doc" "eng" "uuid-0" ["uuid-1"] w)
    = Raise (ValueError "demo/pages/uuid-1/page.txt not found on S3") ∧
  fst (update_db_task (cfg := disabled) "doc" "eng" "uuid-0" ["uuid-1"] w) = Ok tt ∧
  map pg_text
    (db_pages (db (snd (update_db_task (cfg := disabled) "doc" "eng" "uuid-0" ["uuid-1"] w))))
    = [[]; []].
Proof. vm_compute. repeat split; reflexivity. Qed.


(** C10 on page ["b"], which the bucket does not have: the GET is
    answered with status 404, and the error document becomes the
    content of the page's PDF file. *)
Lemma response_body_written_whatever_status_witness :
  s3_http_get (remote three_pages) (page_pdf_url (cfg := enabled) "b")
    = HttpResponse {| status_code := 404; body := [Byte.x34; Byte.x30; Byte.x34] |} ∧
  fst (download_one_pdf_page (cfg := enabled) "b" three_pages) = Ok tt ∧
  fs (snd (download_one_pdf_page (cfg := enabled) "b" three_pages)) !! page_pdf_file "b"
    = Some (File [Byte.x34; Byte.x30; Byte.x34]).
Proof.
  split; [reflexivity|].
  destruct (response_body_written_whatever_status (cfg := enabled) "b" three_pages
              {| status_code := 404; body := [Byte.x34; Byte.x30; Byte.x34] |}
              (<[ ["/var/media"; "pages"; "b"] := Dir ]> (fs three_pages)))
    as (_ & Hrun & Hfile).
  - reflexivity.
  - vm_compute. reflexivity.
  - vm_compute. discriminate.
  - split; [by rewrite Hrun|exact Hfile].
Defined.


(** * The further properties at concrete deployments *)

(** X1 on a path that does not exist. *)
Lemma upload_file_skips_what_is_not_a_file_witness :
  upload_file (cfg := enabled) ["docvers"; "v1"; "invoice.pdf"] cold = (Ok tt, cold).
Proof.
  apply (upload_file_skips_what_is_not_a_file (cfg := enabled)). reflexivity.
Defined.

(** X2 on the file of ["v1"], published to an empty bucket. *)
Lemma upload_file_then_obj_exists_witness :
  let r := upload_file (cfg := enabled) ["docvers"; "v1"; "invoice.pdf"] local_only in
  fst r = Ok tt ∧
  fs (snd r) = fs local_only ∧
  calls (snd r) = [UploadFile (Some "papermerge") "demo/docvers/v1/invoice.pdf"] ∧
  objects (remote (snd r)) !! v1_key = Some pdf_bytes ∧
  fst (obj_exists (cfg := enabled) "demo/docvers/v1/invoice.pdf" (snd r)) = Ok true.
Proof.
  refine (upload_file_then_obj_exists (cfg := enabled) ["docvers"; "v1"; "invoice.pdf"]
            local_only pdf_bytes _ _ _ _); reflexivity.
Defined.

(** X3 on the cold cache. *)
Lemma download_docver_fetches_missing_file_witness :
  fst (download_docver (cfg := enabled) "v1" "invoice.pdf" cold) = Ok tt ∧
  calls (snd (download_docver (cfg := enabled) "v1" "invoice.pdf" cold)) =
    [HeadObject (Some "papermerge") "demo/docvers/v1/invoice.pdf";
     DownloadFile (Some "papermerge") "demo/docvers/v1/invoice.pdf"] ∧
  fs (snd (download_docver (cfg := enabled) "v1" "invoice.pdf" cold))
    !! ["/var/media"; "docvers"; "v1"; "invoice.pdf"] = Some (File pdf_bytes).
Proof.
  refine (download_docver_fetches_missing_file (cfg := enabled) "v1" "invoice.pdf" cold
            pdf_bytes
            (default ∅ (mkdir_from [] ["/var/media"; "docvers"; "v1"] ∅))
            _ _ _ _ _ _); vm_compute; reflexivity.
Defined.

(** X4: the file published from one worker is fetched by another. *)
Lemma publish_then_fetch_round_trip_witness :
  fst (upload_file (cfg := enabled) ["docvers"; "v1"; "invoice.pdf"] local_only) = Ok tt ∧
  fst (download_docver (cfg := enabled) "v1" "invoice.pdf" other_worker) = Ok tt ∧
  fs (snd (download_docver (cfg := enabled) "v1" "invoice.pdf" other_worker))
    !! ["/var/media"; "docvers"; "v1"; "invoice.pdf"] = Some (File pdf_bytes).
Proof.
  refine (publish_then_fetch_round_trip (cfg := enabled) "v1" "invoice.pdf"
            local_only other_worker pdf_bytes
            (default ∅ (mkdir_from [] ["/var/media"; "docvers"; "v1"] ∅))
            _ _ _ _ _ _ _); vm_compute; reflexivity.
Defined.

(** X5 on a file that is on disk only. *)
Lemma download_docver_local_only_raises_witness :
  fst (download_docver (cfg := enabled) "v1" "invoice.pdf" local_only)
    = Raise (ClientError 404) ∧
  calls (snd (download_docver (cfg := enabled) "v1" "invoice.pdf" local_only)) =
    [DownloadFile (Some "papermerge") "demo/docvers/v1/invoice.pdf"] ∧
  fs (snd (download_docver (cfg := enabled) "v1" "invoice.pdf" local_only))
    !! ["/var/media"; "docvers"; "v1"; "invoice.pdf"] = Some (File pdf_bytes).
Proof.
  refine (download_docver_local_only_raises (cfg := enabled) "v1" "invoice.pdf"
            local_only (File pdf_bytes) (fs local_only) _ _ _ _ _);
    vm_compute; reflexivity.
Defined.

(** X6 on a page text that the first call downloads. *)
Lemma download_page_txt_twice_witness :
  let w1 := snd (download_page_txt (cfg := enabled) "p1" txt_cold) in
  calls w1 = [HeadObject (Some "papermerge") "demo/pages/p1/page.txt";
              DownloadFile (Some "papermerge") "demo/pages/p1/page.txt"] ∧
  download_page_txt (cfg := enabled) "p1" w1 = (Ok tt, w1).
Proof.
  split; [reflexivity|].
  apply (download_page_txt_twice (cfg := enabled) "p1" txt_cold). reflexivity.
Defined.

(** X7 on a page text that is nowhere. *)
Lemma download_page_txt_missing_raises_witness :
  let r := download_page_txt (cfg := enabled) "p1" cold in
  fst r = Raise (ValueError "demo/pages/p1/page.txt not found on S3") ∧
  calls (snd r) = [HeadObject (Some "papermerge") "demo/pages/p1/page.txt"] ∧
  fs (snd r) = fs cold.
Proof.
  refine (download_page_txt_missing_raises (cfg := enabled) "p1" cold 404 _ _ _);
    reflexivity.
Defined.

(** X9 on two missing pages, fetched in reverse order. *)
Lemma batch_fetch_requests_each_missing_page_once_witness :
  ∃ new,
    calls (snd (download_pdf_pages (cfg := enabled) ["b"; "c"] two_pages)) = new ∧
    new ≡ₚ [HttpGet (page_pdf_url (cfg := enabled) "b");
            HttpGet (page_pdf_url (cfg := enabled) "c")].
Proof.
  destruct (batch_fetch_requests_each_missing_page_once (cfg := enabled)
              ["b"; "c"] two_pages) as (new & Hc & Hp).
  - reflexivity.
  - intros n. simpl. apply reverse_Permutation.
  - vm_compute. reflexivity.
  - exists new. split; [exact Hc|exact Hp].
Defined.

(** X10 on a page that is on disk. *)
Lemma batch_fetch_nothing_to_do_witness :
  download_pdf_pages (cfg := enabled) ["a"] three_pages = (Ok tt, three_pages).
Proof.
  apply (batch_fetch_nothing_to_do (cfg := enabled)).
  - intros n. simpl. apply reverse_Permutation.
  - intros page_id Hin. apply list_elem_of_singleton in Hin as ->. reflexivity.
Defined.

(** X11 on a page directory with two files and a sub-directory. *)
Lemma upload_page_dir_uploads_regular_files_witness :
  let r := upload_page_dir (cfg := enabled) "p1" page_dir in
  fst r = Ok tt ∧
  fs (snd r) = fs page_dir ∧
  calls (snd r) ≡ₚ [UploadFile (Some "papermerge") "demo/pages/p1/page.pdf";
                    UploadFile (Some "papermerge") "demo/pages/p1/page.txt"].
Proof.
  destruct (upload_page_dir_uploads_regular_files (cfg := enabled) "p1" page_dir)
    as (Hok & Hfs & Hcalls).
  - reflexivity.
  - intros name. reflexivity.
  - intros c. reflexivity.
  - split; [exact Hok|]. split; [exact Hfs|].
    rewrite Hcalls. vm_compute.
    first [reflexivity | apply perm_swap].
Defined.

(** X12 on the queue of the OCR tasks. *)
Lemma prefixed_inj_witness :
  prefixed (cfg := enabled) "ocr" = "demo_ocr" ∧ "ocr" = "ocr".
Proof.
  split; [reflexivity|]. apply (prefixed_inj (cfg := enabled)). reflexivity.
Defined.

(** X13 on ["ENG"] and ["eng"]. *)
Lemma language_case_is_ignored_witness :
  ocr_document_task (cfg := enabled) "doc" "ENG" cold
  = ocr_document_task (cfg := enabled) "doc" "eng" cold.
Proof. apply (language_case_is_ignored (cfg := enabled)). reflexivity. Defined.

(** X14 on a submission retried once. *)
Lemma submission_submits_at_most_one_workflow_witness :
  let r := submit_ocr_document (cfg := enabled) upload_arrives "doc" "eng"
             (nowhere "invoice.pdf") in
  ∃ wf, broker (snd r) = [wf].
Proof.
  apply (submission_submits_at_most_one_workflow (cfg := enabled) upload_arrives
           "doc" "eng" (nowhere "invoice.pdf")).
  - intros k w'. reflexivity.
  - vm_compute. reflexivity.
Defined.

Local Ltac missing_here :=
  split; [reflexivity|]; exists v1_row;
  split; [vm_compute; reflexivity|];
  split; [vm_compute; reflexivity|];
  exists 404%Z; vm_compute; reflexivity.

(** X15 on a source that never shows up. *)
Lemma submission_fails_when_source_never_appears_witness :
  ∃ es msg,
    length es = 6%nat ∧
    fst (submit_ocr_document (cfg := enabled) nothing_happens "doc" "eng"
           (nowhere "invoice.pdf"))
    = (Retry 10 <$> es) ++ [Failure (S3DocumentNotFound msg)].
Proof.
  apply (submission_fails_when_source_never_appears (cfg := enabled)).
  intros j Hj.
  do 7 (destruct j as [|j]; [missing_here|]). lia.
Defined.

(** X16 on a source that shows up after the first delivery. *)
Lemma submission_succeeds_once_source_appears_witness :
  ∃ es,
    length es = 1%nat ∧
    fst (submit_ocr_document (cfg := enabled) upload_arrives "doc" "eng"
           (nowhere "invoice.pdf"))
    = (Retry 10 <$> es) ++ [Succeeded].
Proof.
  apply (submission_succeeds_once_source_appears (cfg := enabled) upload_arrives
           "doc" "eng" (nowhere "invoice.pdf") 1).
  - lia.
  - intros j Hj. destruct j as [|j]; [missing_here|lia].
  - vm_compute. reflexivity.
Defined.

(** X17 with the mirror disabled and no sidecar on disk. *)
Lemma commit_attaches_local_sidecars_witness :
  fst (update_db_task (cfg := disabled) "doc" "eng" "uuid-0" ["uuid-1"]
         (nowhere "invoice.pdf")) = Ok tt ∧
  map pg_text
    (db_pages (db (snd (update_db_task (cfg := disabled) "doc" "eng" "uuid-0" ["uuid-1"]
                          (nowhere "invoice.pdf"))))) = [[]; []].
Proof.
  destruct (commit_attaches_local_sidecars (cfg := disabled) "doc" "eng" "uuid-0"
              ["uuid-1"] (nowhere "invoice.pdf")
              (snd (db_increment_doc_ver "doc" "uuid-0" ["uuid-1"] "eng"
                      (nowhere "invoice.pdf")))) as (Hrun & _ & _).
  - vm_compute. reflexivity.
  - intros p Hp. split; [left; reflexivity|].
    vm_compute in Hp. apply list_elem_of_singleton in Hp as ->.
    vm_compute. discriminate.
  - rewrite Hrun. split; [reflexivity|]. vm_compute. reflexivity.
Defined.

(** X18 on the one-page document. *)
Lemma notifications_carry_document_id_witness :
  ∃ wf, broker (snd (ocr_document_task (cfg := enabled) "doc" "ENG" cold)) = [wf] ∧
        length wf = 5%nat.
Proof.
  destruct (notifications_carry_document_id (cfg := enabled)
              (ocr := {| run_one_page_ocr := λ _ _ _ _ _ _ _, mret tt |})
              "doc" "ENG" cold
              (snd (ocr_document_task (cfg := enabled) "doc" "ENG" cold)))
    as (wf & _ & _ & Hb & Hlen & _).
  - vm_compute. reflexivity.
  - exists wf. split; [exact Hb|exact Hlen].
Defined.

(** X19 on a store that cannot be reached. *)
Lemma connection_failure_is_not_retried_witness :
  let r := run_task ocr_document_task_options 0
             (ocr_document_task (cfg := enabled) "doc" "eng") unreachable in
  fst r = Failure EndpointConnectionError ∧ broker (snd r) = broker unreachable.
Proof.
  refine (connection_failure_is_not_retried (cfg := enabled) "doc" "eng" unreachable 0
            v1_row _ _ _ _); vm_compute; reflexivity.
Defined.

(** X20 on the PDF of page ["p1"]. *)
Lemma page_pdf_round_trip_witness :
  fst (upload_file (cfg := enabled) ["pages"; "p1"; "page.pdf"] page_dir) = Ok tt ∧
  fst (download_one_pdf_page (cfg := enabled) "p1" page_elsewhere) = Ok tt ∧
  fs (snd (download_one_pdf_page (cfg := enabled) "p1" page_elsewhere))
    !! ["/var/media"; "pages"; "p1"; "page.pdf"] = Some (File pdf_bytes).
Proof.
  refine (page_pdf_round_trip (cfg := enabled) "p1" page_dir page_elsewhere pdf_bytes
            (default ∅ (mkdir_from [] ["/var/media"; "pages"; "p1"] ∅))
            _ _ _ _ _ _ _); vm_compute; try reflexivity.
  discriminate.
Defined.
